(** * Skin-lesion diagnosis service: image pipeline, classifier adapter,
      narrative enrichment and upload handler

    A shallow embedding of [models/preprocessing.py], [models/model.py],
    [models/groq_integration.py] and the [upload] view of
    [routes/diagnosis.py].

    Conventions of the embedding.
    - A Python call either returns or raises: [outcome A].  Only instances of
      [Exception] are modelled, which is what every handler of the source
      catches ([except Exception]).
    - Numbers held in Python or NumPy floats are modelled by the rational they
      denote ([Q]); the rounding of float32/float64 arithmetic, infinities and
      NaN are outside the model.  Unsigned 8-bit array elements are integers
      ([Z]) with the wrap-around of the dtype written out.
    - PIL, OpenCV, TensorFlow, [requests] and [json] are libraries the program
      calls; their operations are Section variables, and the part of their
      documented contract the program relies on (PIL's size order, the shape
      of [np.array(img)]) is written into the definitions that wrap them. *)

From Stdlib Require Import String Ascii ZArith QArith Qround List Bool Lia Lqa DecimalString.
From Stdlib Require Import Sorted Permutation.
Import ListNotations.

Set Implicit Arguments.

(** ** Python outcomes: a value or a raised exception *)

Inductive exn_class :=
  | IndexError | AttributeError | TypeError | KeyError | ValueError
  | JSONDecodeError | ZeroDivisionError | OSError | RuntimeError
  | cv2_error | RequestException.

(** [exn_str e] is [str(e)]. *)
Record exn := mk_exn { exn_type : exn_class; exn_str : string }.

Inductive outcome (A : Type) : Type :=
  | Return (a : A)
  | Raise (e : exn).

Arguments Return {A} a.
Arguments Raise {A} e.

Definition bind {A B} (c : outcome A) (k : A -> outcome B) : outcome B :=
  match c with
  | Return a => k a
  | Raise e => Raise e
  end.

(** [try: c  except Exception as e: h e] *)
Definition try_except {A} (c : outcome A) (h : exn -> outcome A) : outcome A :=
  match c with
  | Return a => Return a
  | Raise e => h e
  end.

Declare Scope py_scope.
Delimit Scope py_scope with py.
Notation "x <- c ;; k" := (bind c (fun x => k))
  (at level 61, c at next level, right associativity) : py_scope.
Notation "' pat <- c ;; k" := (bind c (fun x => match x with pat => k end))
  (at level 61, pat pattern, c at next level, right associativity) : py_scope.
Local Open Scope py_scope.

Definition raises {A} (c : outcome A) : Prop := exists e, c = Raise e.
Definition returns {A} (c : outcome A) : Prop := exists a, c = Return a.

(** [d.get(k)] on a dict held as the list of its items. *)
Fixpoint assoc {V} (k : string) (kvs : list (string * V)) : option V :=
  match kvs with
  | [] => None
  | (k', v) :: rest => if String.eqb k k' then Some v else assoc k rest
  end.

(** ** NumPy arrays: a shape and the elements in row-major order *)

Record ndarray (A : Type) := mk_ndarray { shape : list nat; data : list A }.

(** [a.shape[i]]; a tuple index out of range raises [IndexError]. *)
Definition shape_at {A} (a : ndarray A) (i : nat) : outcome nat :=
  match nth_error (shape a) i with
  | Some n => Return n
  | None => Raise (mk_exn IndexError "tuple index out of range")
  end.

(** [np.stack([a, a, a], axis=-1)] *)
Definition np_stack3 {A} (a : ndarray A) : ndarray A :=
  mk_ndarray (shape a ++ [3%nat]) (flat_map (fun x => [x; x; x]) (data a)).

(** The elements of [a[..., :k]] for an array whose last axis has length
    [c], with [k <= c]. *)
Definition slice_last {A} (c k : nat) (d : list A) : list A :=
  flat_map (fun i => firstn k (skipn (i * c) d)) (seq 0 (length d / c)).

Definition prod_shape (s : list nat) : nat := fold_right Nat.mul 1%nat s.

(** [a[:, :, :3]]: the first three entries along the third axis. *)
Definition np_first3 {A} (a : ndarray A) : outcome (ndarray A) :=
  match shape a with
  | h :: w :: c :: rest =>
      let r := prod_shape rest in
      Return (mk_ndarray (h :: w :: Nat.min 3 c :: rest)
                         (slice_last (c * r) (Nat.min 3 c * r) (data a)))
  | _ => Raise (mk_exn IndexError "too many indices for array")
  end.

(** [np.expand_dims(a, axis=0)] *)
Definition np_expand_dims0 {A} (a : ndarray A) : ndarray A :=
  mk_ndarray (1%nat :: shape a) (data a).

(** [a.astype('float32') / 255.0] *)
Definition np_div255 (a : ndarray Z) : ndarray Q :=
  mk_ndarray (shape a) (map (fun z => inject_Z z / 255)%Q (data a)).

(** The closed interval [0.0, 1.0]. *)
Definition unit_interval (q : Q) : Prop := (0 <= q /\ q <= 1)%Q.

(** The values of an 8-bit sample. *)
Definition eight_bit (z : Z) : Prop := (0 <= z <= 255)%Z.

(** ** models/preprocessing.py: preprocess_image *)

Module Preprocessing.

(** A PIL image: number of bands, [size] as PIL has it, (width, height), and
    the samples row by row, bands interleaved. *)
Record PILImage := mk_image {
  im_bands : nat;
  im_size : nat * nat;
  im_data : list Z }.

(** [np.array(img)]: shape (height, width) for a single band, otherwise
    (height, width, bands). *)
Definition np_array (img : PILImage) : ndarray Z :=
  let '(width, height) := im_size img in
  mk_ndarray
    (if (im_bands img =? 1)%nat then [height; width]
     else [height; width; im_bands img])
    (im_data img).

Section PreprocessImage.

(** [Image.open]: decoding may fail. *)
Variable Image_open : string -> outcome PILImage.
(** The resampling filter of [Image.resize]: the samples of the resized
    image, or a failure (truncated or corrupt file). *)
Variable resample : PILImage -> nat * nat -> outcome (list Z).

(** [img.resize(size)]: PIL reads [size] as (width, height). *)
Definition resize (img : PILImage) (size : nat * nat) : outcome PILImage :=
  d <- resample img size ;;
  Return (mk_image (im_bands img) size d).

Definition to_three_channels (a : ndarray Z) : outcome (ndarray Z) :=
  if (length (shape a) =? 2)%nat then Return (np_stack3 a)
  else
    c <- shape_at a 2 ;;
    if (c =? 4)%nat then np_first3 a else Return a.

Definition preprocess_image_body (image_path : string)
    (target_size : nat * nat) : outcome (ndarray Q) :=
  img <- Image_open image_path ;;
  img <- resize img target_size ;;
  let img_array := np_array img in
  img_array <- to_three_channels img_array ;;
  let img_array := np_expand_dims0 img_array in
  Return (np_div255 img_array).

(** The handler logs and re-raises. *)
Definition preprocess_image (image_path : string)
    (target_size : nat * nat) : outcome (ndarray Q) :=
  try_except (preprocess_image_body image_path target_size)
             (fun e => Raise e).

Definition default_target_size : nat * nat := (180%nat, 180%nat).

End PreprocessImage.

(** *** extract_features *)

(** What [extract_features] may be handed: an object without [.shape], or an
    array of dtype uint8, float32 or float64. *)
Inductive py_image :=
  | NotAnArray
  | U8 (a : ndarray Z)
  | F32 (a : ndarray Q)
  | F64 (a : ndarray Q).

Definition pydict := list (string * Q).

(** The returned dict; ['error'] is present on the failure path only. *)
Record FeatureSet := mk_features {
  fs_color : pydict;
  fs_texture : pydict;
  fs_shape : pydict;
  fs_error : option string }.

Definition contour := list (Z * Z).

Inductive ColorConversionCode := COLOR_RGB2BGR | COLOR_BGR2GRAY | COLOR_BGR2HSV.

(** [a[0].copy()] *)
Definition np_first {A} (a : ndarray A) : outcome (ndarray A) :=
  match shape a with
  | [] => Raise (mk_exn IndexError "too many indices for array")
  | O :: _ => Raise (mk_exn IndexError "index 0 is out of bounds for axis 0 with size 0")
  | S _ :: rest => Return (mk_ndarray rest (firstn (prod_shape rest) (data a)))
  end.

(** The C cast of [astype(np.uint8)] on a float: truncate, keep the low byte. *)
Definition float_to_uint8 (q : Q) : Z :=
  (if Qle_bool 0 q then Qfloor q else Qceiling q) mod 256.

(** [(img * 255).astype(np.uint8)] *)
Definition scale_to_uint8 (a : ndarray Q) : ndarray Z :=
  mk_ndarray (shape a) (map (fun q => float_to_uint8 (q * 255)) (data a)).

(** [a[:, :, c]] flattened; [IndexError] unless [a] has three axes and
    [c] is within the last one. *)
Definition np_channel {A} (a : ndarray A) (c : nat) : outcome (list A) :=
  match shape a with
  | [h; w; n] =>
      if (c <? n)%nat
      then Return (flat_map (fun i => firstn 1 (skipn (i * n + c) (data a)))
                            (seq 0 (h * w)))
      else Raise (mk_exn IndexError "index out of bounds for axis 2")
  | _ => Raise (mk_exn IndexError "too many indices for array")
  end.

Definition Zsum (xs : list Z) : Z := fold_right Z.add 0%Z xs.
Definition Qsum (xs : list Q) : Q := fold_right Qplus 0%Q xs.

(** [np.mean] of an integer array, accumulated in float64. *)
Definition np_mean (xs : list Z) : Q :=
  (inject_Z (Zsum xs) / inject_Z (Z.of_nat (length xs)))%Q.

(** [mean(abs(x - x.mean())**2)], the variance [np.std] takes the root of. *)
Definition np_var (xs : list Z) : Q :=
  let m := np_mean xs in
  (Qsum (map (fun x => (inject_Z x - m) * (inject_Z x - m)) xs)
   / inject_Z (Z.of_nat (length xs)))%Q.

(** [gray**2] on a uint8 array: the result keeps dtype uint8, so every
    square is reduced modulo 256. *)
Definition uint8_square (xs : list Z) : list Z :=
  map (fun g => (g * g) mod 256)%Z xs.

(** [np.pi], the double nearest to pi. *)
Definition np_pi : Q := 884279719003555 # 281474976710656.

(** Python's [/]: a zero divisor raises. *)
Definition py_truediv (a b : Q) : outcome Q :=
  if Qeq_bool b 0 then Raise (mk_exn ZeroDivisionError "division by zero")
  else Return (a / b)%Q.

(** [0 < x] on floats. *)
Definition Qpositive (x : Q) : bool := negb (Qle_bool x 0).

(** [max(c0 :: rest, key=key)]: the first element whose key is largest. *)
Fixpoint py_max_by {A} (key : A -> Q) (best : A) (rest : list A) : A :=
  match rest with
  | [] => best
  | c :: rest' =>
      if Qpositive (key c - key best) then py_max_by key c rest'
      else py_max_by key best rest'
  end.

Definition zero_shape : pydict :=
  [("area", 0); ("perimeter", 0); ("circularity", 0);
   ("aspect_ratio", 0); ("solidity", 0)]%string%Q.

Section ExtractFeatures.

(** OpenCV, on 8-bit images. *)
Variable cvtColor : ndarray Z -> ColorConversionCode -> outcome (ndarray Z).
(** [cv2.threshold(gray, 0, 255, THRESH_BINARY_INV + THRESH_OTSU)]:
    the chosen threshold and the binary image. *)
Variable threshold : ndarray Z -> outcome (Q * ndarray Z).
(** [cv2.findContours(thresh, RETR_EXTERNAL, CHAIN_APPROX_SIMPLE)[0]] *)
Variable findContours : ndarray Z -> outcome (list contour).
Variable contourArea : contour -> Q.
(** [cv2.arcLength(c, True)] *)
Variable arcLength : contour -> Q.
(** (x, y, w, h) *)
Variable boundingRect : contour -> Z * Z * Z * Z.
Variable convexHull : contour -> contour.
(** Square root on float64, for [np.std]. *)
Variable np_sqrt : Q -> Q.

Definition np_std (xs : list Z) : Q := np_sqrt (np_var xs).

(** Lines 113-126: drop the batch axis, go to uint8, go to BGR. *)
Definition load_bgr (img_array : py_image) : outcome (ndarray Z) :=
  img <- match img_array with
         | NotAnArray =>
             Raise (mk_exn AttributeError "object has no attribute 'shape'")
         | U8 a =>
             if (length (shape a) =? 4)%nat then np_first a else Return a
         | F32 a | F64 a =>
             img <- (if (length (shape a) =? 4)%nat then np_first a
                     else Return a) ;;
             Return (scale_to_uint8 img)
         end ;;
  c <- shape_at img 2 ;;
  if (c =? 3)%nat then cvtColor img COLOR_RGB2BGR else Return img.

Definition color_features (img_hsv : ndarray Z) : outcome pydict :=
  hue <- np_channel img_hsv 0 ;;
  saturation <- np_channel img_hsv 1 ;;
  value <- np_channel img_hsv 2 ;;
  Return [("hue_avg", np_mean hue);
          ("saturation_avg", np_mean saturation);
          ("value_avg", np_mean value);
          ("hue_std", np_std hue);
          ("saturation_std", np_std saturation);
          ("value_std", np_std value)]%string.

(** Lines 145-146. *)
Definition texture_contrast (gray : ndarray Z) : Q := np_std (data gray).

Definition texture_energy (gray : ndarray Z) : outcome Q :=
  rows <- shape_at gray 0 ;;
  cols <- shape_at gray 1 ;;
  Return (inject_Z (Zsum (uint8_square (data gray)))
          / inject_Z (Z.of_nat (rows * cols)))%Q.

Definition texture_features (gray : ndarray Z) : outcome pydict :=
  let contrast := texture_contrast gray in
  energy <- texture_energy gray ;;
  Return [("contrast", contrast); ("energy", energy)]%string.

(** Lines 129-153: everything measured before the shape analysis. *)
Definition measure (img_bgr : ndarray Z)
  : outcome (pydict * pydict * list contour) :=
  gray <- cvtColor img_bgr COLOR_BGR2GRAY ;;
  img_hsv <- cvtColor img_bgr COLOR_BGR2HSV ;;
  color <- color_features img_hsv ;;
  texture <- texture_features gray ;;
  ' (_, thresh) <- threshold gray ;;
  contours <- findContours thresh ;;
  Return (color, texture, contours).

Definition circularity_of (area perimeter : Q) : outcome Q :=
  if Qpositive perimeter
  then py_truediv (4 * np_pi * area) (perimeter ^ 2)
  else Return 0%Q.

Definition aspect_ratio_of (w h : Z) : outcome Q :=
  if (h >? 0)%Z then py_truediv (inject_Z w) (inject_Z h) else Return 0%Q.

Definition solidity_of (area hull_area : Q) : outcome Q :=
  if Qpositive hull_area then py_truediv area hull_area else Return 0%Q.

(** Lines 156-179. *)
Definition shape_features (contours : list contour) : outcome pydict :=
  match contours with
  | c0 :: rest =>
      let largest_contour := py_max_by contourArea c0 rest in
      let area := contourArea largest_contour in
      let perimeter := arcLength largest_contour in
      circularity <- circularity_of area perimeter ;;
      let '(x, y, w, h) := boundingRect largest_contour in
      aspect_ratio <- aspect_ratio_of w h ;;
      let hull := convexHull largest_contour in
      let hull_area := contourArea hull in
      solidity <- solidity_of area hull_area ;;
      Return [("area", area); ("perimeter", perimeter);
              ("circularity", circularity);
              ("aspect_ratio", aspect_ratio);
              ("solidity", solidity)]%string
  | [] => Return zero_shape
  end.

Definition extract_features_body (img_array : py_image)
  : outcome FeatureSet :=
  img_bgr <- load_bgr img_array ;;
  ' (color, texture, contours) <- measure img_bgr ;;
  shape <- shape_features contours ;;
  Return (mk_features color texture shape None).

Definition extract_features (img_array : py_image) : outcome FeatureSet :=
  try_except (extract_features_body img_array)
             (fun e => Return (mk_features [] [] [] (Some (exn_str e)))).

End ExtractFeatures.

End Preprocessing.

(** ** config.py and the Flask application context *)

Record Config := mk_config {
  GROQ_API_KEY : string;
  GROQ_MODEL : string;
  UPLOAD_FOLDER : string }.

(** ** models/groq_integration.py *)

Module Groq.

(** Python values that JSON can hold; [JNull] is [None]. *)
#[local] Set Warnings "-register-all".
Inductive json :=
  | JNull
  | JBool (b : bool)
  | JNum (q : Q)
  | JStr (s : string)
  | JArr (items : list json)
  | JObj (fields : list (string * json)).

(** [j[key]] with a string key. *)
Definition getitem_key (j : json) (key : string) : outcome json :=
  match j with
  | JObj fields =>
      match assoc key fields with
      | Some v => Return v
      | None => Raise (mk_exn KeyError key)
      end
  | JArr _ => Raise (mk_exn TypeError "list indices must be integers or slices, not str")
  | JStr _ => Raise (mk_exn TypeError "string indices must be integers")
  | _ => Raise (mk_exn TypeError "object is not subscriptable")
  end.

(** [j[0]] *)
Definition getitem_0 (j : json) : outcome json :=
  match j with
  | JArr (x :: _) => Return x
  | JArr [] => Raise (mk_exn IndexError "list index out of range")
  | JObj _ => Raise (mk_exn KeyError "0")
  | JStr (String c _) => Return (JStr (String c EmptyString))
  | JStr EmptyString => Raise (mk_exn IndexError "string index out of range")
  | _ => Raise (mk_exn TypeError "object is not subscriptable")
  end.

(** [s.find(c)]: the first index of [c], or -1. *)
Fixpoint str_find (c : ascii) (s : string) : Z :=
  match s with
  | EmptyString => -1
  | String a rest =>
      if Ascii.eqb a c then 0
      else let i := str_find c rest in
           if (i <? 0)%Z then -1 else i + 1
  end%Z.

(** [s.rfind(c)]: the last index of [c], or -1. *)
Fixpoint str_rfind (c : ascii) (s : string) : Z :=
  match s with
  | EmptyString => -1
  | String a rest =>
      let i := str_rfind c rest in
      if (0 <=? i)%Z then i + 1
      else if Ascii.eqb a c then 0 else -1
  end%Z.

(** [s[i:j]] for [0 <= i < j]. *)
Definition str_slice (s : string) (i j : Z) : string :=
  substring (Z.to_nat i) (Z.to_nat (j - i)) s.

Definition error_marker (msg : string) : json := JObj [("error"%string, JStr msg)].

Definition is_error_marker (j : json) : Prop := exists msg, j = error_marker msg.

Definition is_error_marker_result (r : outcome json) : Prop :=
  exists j, r = Return j /\ is_error_marker j.

(** [str(n)] for a non-negative status code. *)
Definition str_of_status (n : Z) : string :=
  DecimalString.NilZero.string_of_uint (N.to_uint (Z.to_N n)).

Record Request := mk_request {
  rq_url : string;
  rq_authorization : string;
  rq_model : string;
  rq_prompt_class : string;
  rq_prompt_confidence : Q;
  rq_timeout : Z }.

(** What the program reads off a [requests.Response]; [resp_json] is
    [response.json()]. *)
Record Response := mk_response {
  status_code : Z;
  text : string;
  resp_json : outcome json }.

(** Lines 54-76: the request sent; the prompt is kept as the two values
    formatted into it. *)
Definition chat_request (api_key model_name predicted_class : string)
    (confidence : Q) : Request :=
  mk_request "https://api.groq.com/openai/v1/chat/completions"
             ("Bearer " ++ api_key) model_name predicted_class confidence 30.

Section GetGroqAnalysis.

(** [current_app.config]; outside an application context the proxy raises. *)
Variable current_app_config : outcome Config.
(** [requests.post(..., timeout=30)]: time-outs and connection errors raise. *)
Variable requests_post : Request -> outcome Response.
(** [json.loads] on a [str]. *)
Variable json_loads_str : string -> outcome json.

(** [response_data['choices'][0]['message']['content']] *)
Definition message_content (response_data : json) : outcome json :=
  choices <- getitem_key response_data "choices" ;;
  choice <- getitem_0 choices ;;
  message <- getitem_key choice "message" ;;
  getitem_key message "content".

(** [json.loads(content)]: anything but text is a [TypeError]. *)
Definition json_loads (content : json) : outcome json :=
  match content with
  | JStr s => json_loads_str s
  | _ => Raise (mk_exn TypeError "the JSON object must be str, bytes or bytearray")
  end.

(** Lines 90-99, the handler of [json.JSONDecodeError].  When the test of
    line 94 is false the function runs off its end and returns [None]. *)
Definition extract_braces (content : json) : outcome json :=
  try_except
    (match content with
     | JStr s =>
         let start_idx := str_find "{" s in
         let end_idx := (str_rfind "}" s + 1)%Z in
         if ((start_idx >=? 0) && (end_idx >? start_idx))%Z%bool then
           let json_str := str_slice s start_idx end_idx in
           json_loads_str json_str
         else Return JNull
     | _ => Raise (mk_exn AttributeError "object has no attribute 'find'")
     end)
    (fun _ => Return (error_marker "Failed to parse JSON from Groq response")).

Definition is_JSONDecodeError (e : exn) : bool :=
  match exn_type e with JSONDecodeError => true | _ => false end.

Definition get_groq_analysis_body (predicted_class : string) (confidence : Q)
  : outcome json :=
  config <- current_app_config ;;
  let api_key := GROQ_API_KEY config in
  let model_name := GROQ_MODEL config in
  if String.eqb api_key EmptyString then Return JNull
  else
    response <- requests_post
      (chat_request api_key model_name predicted_class confidence) ;;
    if (status_code response =? 200)%Z then
      response_data <- resp_json response ;;
      content <- message_content response_data ;;
      match json_loads content with
      | Return analysis => Return analysis
      | Raise e =>
          if is_JSONDecodeError e then extract_braces content else Raise e
      end
    else
      Return (error_marker ("API request failed with status code "
                            ++ str_of_status (status_code response))).

Definition get_groq_analysis (predicted_class : string) (confidence : Q)
  : outcome json :=
  try_except (get_groq_analysis_body predicted_class confidence)
             (fun e => Return (error_marker (exn_str e))).

End GetGroqAnalysis.

End Groq.

(** ** models/model.py *)

Module Model.

Import Groq.

(** A loaded Keras model, seen through [model.predict]: one row of outputs
    per batch element, or a raised error (wrong input shape, ...). *)
Definition KerasModel := ndarray Q -> outcome (list (list Q)).

(** The returned dict.  ['additional_analysis'] is a key of the normal
    result only, ['error'] of the fallback result only. *)
Record PredictionResult := mk_result {
  prediction : string;
  confidence : Q;
  class_index : Z;
  all_probabilities : list (string * Q);
  additional_analysis : option json;
  error : option string }.

Definition class_labels : list string :=
  ["actinic keratosis"; "basal cell carcinoma"; "dermatofibroma"; "melanoma";
   "nevus"; "pigmented benign keratosis"; "seborrheic keratosis";
   "squamous cell carcinoma"; "vascular lesion"]%string.

(** [xs[i]] for a non-negative index. *)
Definition getitem {A} (xs : list A) (i : nat) : outcome A :=
  match nth_error xs i with
  | Some x => Return x
  | None => Raise (mk_exn IndexError "index out of range")
  end.

(** The first index of the largest element, scanning [rest] from index [i]
    with the best so far at [best_i]. *)
Fixpoint argmax_from (best : Q) (best_i i : nat) (rest : list Q) : nat :=
  match rest with
  | [] => best_i
  | x :: rest' =>
      if Preprocessing.Qpositive (x - best) then argmax_from x i (S i) rest'
      else argmax_from best best_i (S i) rest'
  end.

(** [np.argmax] *)
Definition np_argmax (xs : list Q) : outcome nat :=
  match xs with
  | [] => Raise (mk_exn ValueError "attempt to get argmax of an empty sequence")
  | x :: rest => Return (argmax_from x 0 1 rest)
  end.

(** Round half to even, to an integer. *)
Definition round_half_even (x : Q) : Z :=
  let f := Qfloor x in
  match (x - inject_Z f ?= 1 # 2)%Q with
  | Lt => f
  | Gt => f + 1
  | Eq => if Z.even f then f else f + 1
  end%Z.

(** [round(x, 2)] *)
Definition py_round2 (x : Q) : Q := (inject_Z (round_half_even (x * 100)) / 100)%Q.

(** [{class_labels[i]: float(predictions[0][i]) for i in range(len(class_labels))}] *)
Fixpoint probabilities_from (row : list Q) (i : nat) (labels : list string)
  : outcome (list (string * Q)) :=
  match labels with
  | [] => Return []
  | l :: labels' =>
      p <- getitem row i ;;
      rest <- probabilities_from row (S i) labels' ;;
      Return ((l, p) :: rest)
  end.

Section Classifier.

(** [tf.keras.models.load_model] on the .h5 file (lines 33-37). *)
Variable load_h5 : outcome KerasModel.
(** [_model.compile(...)] (lines 40-44). *)
Variable compile : KerasModel -> outcome unit.
(** [os.path.exists(model_dir)] *)
Variable saved_model_dir_exists : bool.
(** [tf.keras.models.load_model(model_dir)] *)
Variable load_saved_model : outcome KerasModel.
(** Building the untrained placeholder network. *)
Variable create_dummy_model : outcome KerasModel.

Variable current_app_config : outcome Config.
Variable requests_post : Request -> outcome Response.
Variable json_loads_str : string -> outcome json.

(** The handler of line 61 and, when the placeholder cannot be built
    either, the handler of line 69; [cache] is the global [_model]. *)
Definition dummy_after_failure (cache : option KerasModel)
  : outcome KerasModel * option KerasModel :=
  match create_dummy_model with
  | Return d => (Return d, Some d)
  | Raise _ => (create_dummy_model, cache)
  end.

(** The handler of line 48. *)
Definition load_fallback (cache : option KerasModel)
  : outcome KerasModel * option KerasModel :=
  if saved_model_dir_exists then
    match load_saved_model with
    | Return m => (Return m, Some m)
    | Raise _ => dummy_after_failure cache
    end
  else
    match create_dummy_model with
    | Return d => (Return d, Some d)
    | Raise _ => dummy_after_failure cache
    end.

(** [load_model]: the model handed back and the new value of [_model]. *)
Definition load_model (cache : option KerasModel)
  : outcome KerasModel * option KerasModel :=
  match cache with
  | Some m => (Return m, cache)
  | None =>
      match load_h5 with
      | Return m =>
          match compile m with
          | Return _ => (Return m, Some m)
          | Raise _ => load_fallback (Some m)
          end
      | Raise _ => load_fallback None
      end
  end.

(** The runs of [load_model] that end in [create_dummy_model()]: nothing
    cached, the .h5 file does not load (or compile), and the SavedModel
    directory is missing or does not load either. *)
Definition falls_back_to_dummy (cache : option KerasModel) : bool :=
  match cache with
  | Some _ => false
  | None =>
      let h5_ok :=
        match load_h5 with
        | Return m => match compile m with Return _ => true | Raise _ => false end
        | Raise _ => false
        end in
      let saved_ok :=
        saved_model_dir_exists &&
        match load_saved_model with Return _ => true | Raise _ => false end in
      negb h5_ok && negb saved_ok
  end.

(** Lines 125-133. *)
Definition enrich (predicted_class : string) (confidence : Q) : outcome json :=
  config <- current_app_config ;;
  let groq_api_key := GROQ_API_KEY config in
  if String.eqb groq_api_key EmptyString then Return JNull
  else
    try_except
      (get_groq_analysis current_app_config requests_post json_loads_str
                         predicted_class confidence)
      (fun _ => Return JNull).

Definition predict_with (model : outcome KerasModel) (image_array : ndarray Q)
  : outcome PredictionResult :=
  model <- model ;;
  predictions <- model image_array ;;
  row <- getitem predictions 0 ;;
  predicted_class_index <- np_argmax row ;;
  confidence <- getitem row predicted_class_index ;;
  predicted_class <- getitem class_labels predicted_class_index ;;
  additional_analysis <- enrich predicted_class confidence ;;
  probabilities <- probabilities_from row 0 class_labels ;;
  Return (mk_result predicted_class
                    (py_round2 (confidence * 100))
                    (Z.of_nat predicted_class_index)
                    probabilities
                    (Some additional_analysis)
                    None).

Definition fallback_prediction (e : exn) : PredictionResult :=
  mk_result "unknown" 0 (-1) [] None (Some (exn_str e)).

Definition predict_image (image_array : ndarray Q) (cache : option KerasModel)
  : outcome PredictionResult * option KerasModel :=
  let '(model, cache') := load_model cache in
  (try_except (predict_with model image_array)
              (fun e => Return (fallback_prediction e)),
   cache').

End Classifier.

End Model.

(** ** routes/diagnosis.py: the upload view *)

Module Diagnosis.

Import Groq Model Preprocessing.

(** An uploaded file: the client's file name and the bytes sent. *)
Record FileStorage := mk_file { filename : string; stream : string }.

(** [request.files.get('file')] *)
Record HttpRequest := mk_http_request { request_file : option FileStorage }.

(** [redirect(url_for(endpoint))] *)
Inductive HttpResponse := redirect (endpoint : string).

Record DiagnosisResult := mk_diagnosis {
  dr_filename : string;
  dr_original_filename : string;
  dr_prediction : string;
  dr_confidence : Q;
  dr_timestamp : string }.

(** What the view reads and writes: [session['diagnosis_result']], the
    flashed messages, the files on disk and the global [_model]. *)
Record AppState := mk_state {
  session_diagnosis_result : option DiagnosisResult;
  flashed : list (string * string);
  disk : list (string * string);
  model_cache : option KerasModel }.

Definition flash (message category : string) (st : AppState) : AppState :=
  mk_state (session_diagnosis_result st)
           (flashed st ++ [(message, category)])
           (disk st) (model_cache st).

Section Upload.

(** [utils.helpers.allowed_file], which is not among the sources. *)
Variable allowed_file : string -> bool.
Variable secure_filename : string -> string.
(** [os.path.splitext(name)[1]] *)
Variable splitext_ext : string -> string.
(** [str(uuid.uuid4())] *)
Variable uuid4 : string.
(** [datetime.now().strftime(...)] *)
Variable now : string.
(** Whether [file.save] can write into the upload folder. *)
Variable upload_folder_writable : bool.
(** [Image.open] on the bytes of a file. *)
Variable decode : string -> outcome PILImage.
Variable resample : PILImage -> nat * nat -> outcome (list Z).

Variable load_h5 : outcome KerasModel.
Variable compile : KerasModel -> outcome unit.
Variable saved_model_dir_exists : bool.
Variable load_saved_model : outcome KerasModel.
Variable create_dummy_model : outcome KerasModel.
Variable current_app_config : outcome Config.
Variable requests_post : Request -> outcome Response.
Variable json_loads_str : string -> outcome json.

Definition Image_open (files : list (string * string)) (path : string)
  : outcome PILImage :=
  match assoc path files with
  | Some bytes => decode bytes
  | None => Raise (mk_exn OSError "No such file or directory")
  end.

(** [file.save(file_path)] *)
Definition file_save (file : FileStorage) (file_path : string)
    (st : AppState) : outcome AppState :=
  if upload_folder_writable
  then Return (mk_state (session_diagnosis_result st) (flashed st)
                        ((file_path, stream file) :: disk st)
                        (model_cache st))
  else Raise (mk_exn OSError "cannot write the upload").

(** Lines 66-88: the guarded part of the view. *)
Definition diagnose (unique_filename original_filename file_path : string)
    (st : AppState) : HttpResponse * AppState :=
  match preprocess_image (Image_open (disk st)) resample file_path
                         default_target_size with
  | Raise _ =>
      (redirect "diagnosis.index",
       flash "An error occurred during processing. Please try again." "error" st)
  | Return preprocessed_image =>
      let '(prediction_result, cache') :=
        predict_image load_h5 compile saved_model_dir_exists
                      load_saved_model create_dummy_model
                      current_app_config requests_post json_loads_str
                      preprocessed_image (model_cache st) in
      let st := mk_state (session_diagnosis_result st) (flashed st)
                         (disk st) cache' in
      match prediction_result with
      | Raise _ =>
          (redirect "diagnosis.index",
           flash "An error occurred during processing. Please try again." "error" st)
      | Return r =>
          (redirect "diagnosis.results",
           mk_state (Some (mk_diagnosis unique_filename original_filename
                                        (prediction r) (confidence r) now))
                    (flashed st) (disk st) (model_cache st))
      end
  end.

Definition upload (request : HttpRequest) (st : AppState)
  : outcome (HttpResponse * AppState) :=
  match request_file request with
  | None => Return (redirect "diagnosis.index", flash "No file part" "error" st)
  | Some file =>
      if String.eqb (filename file) EmptyString
      then Return (redirect "diagnosis.index", flash "No selected file" "error" st)
      else if allowed_file (filename file) then
        let original_filename := secure_filename (filename file) in
        let file_extension := splitext_ext original_filename in
        let unique_filename := (uuid4 ++ file_extension)%string in
        config <- current_app_config ;;
        let file_path := (UPLOAD_FOLDER config ++ "/" ++ unique_filename)%string in
        st <- file_save file file_path st ;;
        Return (diagnose unique_filename original_filename file_path st)
      else
        Return (redirect "diagnosis.index",
                flash "File type not allowed. Please upload a JPG, JPEG, or PNG image."
                      "error" st)
  end.

End Upload.

End Diagnosis.

(** ** A small concrete environment

    Stand-ins for the libraries, simple enough to run inside Rocq; the
    theorems below hold for every environment and are run on this one. *)

Module Demo.

Import Groq Model Preprocessing Diagnosis.

Definition groups {A} (n : nat) (d : list A) : list (list A) :=
  map (fun i => firstn n (skipn (i * n) d)) (seq 0 (length d / n)).

(** A file is read as one row of 8-bit grey samples, one per byte; the
    empty file is not an image. *)
Definition decode (bytes : string) : outcome PILImage :=
  if String.eqb bytes EmptyString then Raise (mk_exn OSError "cannot identify image file")
  else Return (mk_image 1 (String.length bytes, 1%nat)
                        (map (fun c => Z.of_nat (nat_of_ascii c))
                             (list_ascii_of_string bytes))).

(** Nearest-neighbour resampling to (width, height). *)
Definition nearest (img : PILImage) (size : nat * nat) : outcome (list Z) :=
  let '(w, h) := im_size img in
  let '(w', h') := size in
  let n := im_bands img in
  if ((w' =? 0) || (h' =? 0))%nat
  then Raise (mk_exn ValueError "height and width must be > 0")
  else Return
    (flat_map (fun y =>
       flat_map (fun x =>
         firstn n (skipn (((y * h / h') * w + x * w / w') * n) (im_data img)))
         (seq 0 w'))
       (seq 0 h')).

(** A 2x2 RGB image of one colour. *)
Definition lesion_rgb : PILImage :=
  mk_image 3 (2%nat, 2%nat) [16; 16; 16; 16; 16; 16; 16; 16; 16; 16; 16; 16]%Z.

Definition open_lesion (path : string) : outcome PILImage :=
  if String.eqb path "lesion.png" then Return lesion_rgb
  else Raise (mk_exn OSError "No such file or directory").

(** OpenCV's fixed-point luma of a BGR pixel. *)
Definition gray_of_bgr (px : list Z) : Z :=
  match px with
  | [b; g; r] => Z.shiftr (b * 1868 + g * 9617 + r * 4899 + 8192) 14
  | _ => 0
  end%Z.

(** HSV of a grey pixel (hue and saturation 0); a stand-in on other pixels. *)
Definition hsv_of_bgr (px : list Z) : list Z :=
  match px with
  | [b; g; r] => [0; 0; Z.max b (Z.max g r)]
  | _ => []
  end%Z.

Definition cvtColor (img : ndarray Z) (code : ColorConversionCode)
  : outcome (ndarray Z) :=
  match shape img with
  | [h; w; 3%nat] =>
      let px := groups 3 (data img) in
      match code with
      | COLOR_RGB2BGR => Return (mk_ndarray [h; w; 3%nat] (flat_map (@rev Z) px))
      | COLOR_BGR2GRAY => Return (mk_ndarray [h; w] (map gray_of_bgr px))
      | COLOR_BGR2HSV => Return (mk_ndarray [h; w; 3%nat] (flat_map hsv_of_bgr px))
      end
  | _ => Raise (mk_exn cv2_error "Invalid number of channels in input image")
  end.

(** Inverse binary threshold at a fixed level, standing in for Otsu's choice. *)
Definition threshold (gray : ndarray Z) : outcome (Q * ndarray Z) :=
  Return (127%Q,
          mk_ndarray (shape gray)
                     (map (fun g => if (g <=? 127)%Z then 255%Z else 0%Z) (data gray))).

(** No foreground, no contour; otherwise the outline of the frame. *)
Definition findContours (thresh : ndarray Z) : outcome (list contour) :=
  match shape thresh with
  | [h; w] =>
      if existsb (Z.eqb 255) (data thresh)
      then let x1 := (Z.of_nat w - 1)%Z in
           let y1 := (Z.of_nat h - 1)%Z in
           Return [[(0, 0); (0, y1); (x1, y1); (x1, 0)]%Z]
      else Return []
  | _ => Raise (mk_exn cv2_error "findContours supports only CV_8UC1 images")
  end.

Fixpoint shoelace (first prev : Z * Z) (pts : list (Z * Z)) : Z :=
  match pts with
  | [] => fst prev * snd first - fst first * snd prev
  | p :: rest => fst prev * snd p - fst p * snd prev + shoelace first p rest
  end%Z.

Definition contourArea (c : contour) : Q :=
  match c with
  | [] => 0
  | p :: rest => Z.abs (shoelace p p rest) # 2
  end.

Fixpoint walk (first prev : Z * Z) (pts : list (Z * Z)) : Z :=
  match pts with
  | [] => Z.abs (fst first - fst prev) + Z.abs (snd first - snd prev)
  | p :: rest =>
      Z.abs (fst p - fst prev) + Z.abs (snd p - snd prev) + walk first p rest
  end%Z.

(** Exact on contours whose edges follow the axes. *)
Definition arcLength (c : contour) : Q :=
  match c with
  | [] => 0
  | p :: rest => inject_Z (walk p p rest)
  end.

Definition boundingRect (c : contour) : Z * Z * Z * Z :=
  match c with
  | [] => (0, 0, 0, 0)
  | p :: rest =>
      let x0 := fold_right Z.min (fst p) (map fst rest) in
      let x1 := fold_right Z.max (fst p) (map fst rest) in
      let y0 := fold_right Z.min (snd p) (map snd rest) in
      let y1 := fold_right Z.max (snd p) (map snd rest) in
      (x0, y0, x1 - x0 + 1, y1 - y0 + 1)
  end%Z.

(** Exact on convex contours. *)
Definition convexHull (c : contour) : contour := c.

(** Exact at 0 and 1, all that images of one colour need. *)
Definition np_sqrt (q : Q) : Q := q.

Definition extract_features : py_image -> outcome FeatureSet :=
  Preprocessing.extract_features cvtColor threshold findContours contourArea
                                 arcLength boundingRect convexHull np_sqrt.

(** A uint8 RGB image of one row and two columns, every sample [v]. *)
Definition grey_image (v : Z) : py_image :=
  U8 (mk_ndarray [1; 2; 3]%nat [v; v; v; v; v; v]).

(** A black uint8 RGB image of two rows and two columns. *)
Definition dark_square : py_image :=
  U8 (mk_ndarray [2; 2; 3]%nat (repeat 0%Z 12)).

(** A uint8 RGB image of a single pixel, every sample [v]. *)
Definition grey_pixel (v : Z) : py_image :=
  U8 (mk_ndarray [1; 1; 3]%nat [v; v; v]).

(** A classifier with a fixed softmax output. *)
Definition classifier : KerasModel :=
  fun _ => Return [[1 # 20; 1 # 20; 1 # 10; 3 # 5; 1 # 20; 1 # 20; 1 # 20; 1 # 40; 1 # 40]].

(** A classifier whose last layer is linear: it puts out scores, not
    probabilities. *)
Definition score_classifier : KerasModel :=
  fun _ => Return [[2; 0; -1; 1 # 2; 0; 0; 0; 0; 0]].

Definition tensor : ndarray Q := mk_ndarray [1; 1; 1; 3]%nat [1 # 2; 1 # 2; 1 # 2].

Definition no_key : outcome Config := Return (mk_config EmptyString "llama2-70b-4096" "uploads").
Definition with_key : outcome Config := Return (mk_config "key" "llama2-70b-4096" "uploads").

Definition chat_reply (content : string) : json :=
  JObj [("choices", JArr [JObj [("message", JObj [("content", JStr content)])]])]%string.

(** The API answers 200 with prose instead of JSON. *)
Definition post_prose (_ : Request) : outcome Response :=
  Return (mk_response 200 EmptyString (Return (chat_reply "hello"))).

Definition post_unreachable (_ : Request) : outcome Response :=
  Raise (mk_exn RequestException "connection refused").

(** A decoder that knows the empty object only. *)
Definition json_loads_str (s : string) : outcome json :=
  if String.eqb s "{}" then Return (JObj [])
  else Raise (mk_exn JSONDecodeError "Expecting value").

Definition compile (_ : KerasModel) : outcome unit := Return tt.

Definition missing : outcome KerasModel :=
  Raise (mk_exn OSError "No file or directory found").

(** The .h5 file loads: real-model mode. *)
Definition predict_image :=
  Model.predict_image (Return classifier) compile false missing
                      (Return classifier) no_key post_unreachable
                      json_loads_str.

(** Neither file is there: placeholder mode. *)
Definition predict_image_placeholder :=
  Model.predict_image missing compile false missing
                      (Return classifier) no_key post_unreachable
                      json_loads_str.

Definition allowed_file (name : string) : bool :=
  existsb (fun ext => String.eqb ext (substring (String.length name - 4) 4 name))
          [".png"; ".jpg"]%string.

Definition empty_state : AppState := mk_state None [] [] None.

Definition upload :=
  Diagnosis.upload allowed_file (fun name => name)
                   (fun name => substring (String.length name - 4) 4 name)
                   "0f8fad5b" "2024-01-01 00:00:00" true decode nearest
                   (Return classifier) compile false missing (Return classifier)
                   no_key post_unreachable json_loads_str.

(** An upload named like an image that holds no bytes. *)
Definition empty_upload : HttpRequest :=
  mk_http_request (Some (mk_file "lesion.png" EmptyString)).

End Demo.

(** ** Python string methods, on ASCII text *)

Definition is_ascii_upper (c : ascii) : bool :=
  let n := nat_of_ascii c in ((65 <=? n) && (n <=? 90))%nat.

Definition is_ascii_lower (c : ascii) : bool :=
  let n := nat_of_ascii c in ((97 <=? n) && (n <=? 122))%nat.

Definition lower_char (c : ascii) : ascii :=
  if is_ascii_upper c then ascii_of_nat (nat_of_ascii c + 32) else c.

Definition upper_char (c : ascii) : ascii :=
  if is_ascii_lower c then ascii_of_nat (nat_of_ascii c - 32) else c.

Fixpoint str_map (f : ascii -> ascii) (s : string) : string :=
  match s with
  | EmptyString => EmptyString
  | String c rest => String (f c) (str_map f rest)
  end.

(** [s.lower()] *)
Definition str_lower (s : string) : string := str_map lower_char s.

(** [s.title()]: a letter that follows a letter is lowered, any other
    letter is raised. *)
Fixpoint title_from (after_letter : bool) (s : string) : string :=
  match s with
  | EmptyString => EmptyString
  | String c rest =>
      let letter := is_ascii_upper c || is_ascii_lower c in
      String (if letter
              then if after_letter then lower_char c else upper_char c
              else c)
             (title_from letter rest)
  end.

Definition str_title (s : string) : string := title_from false s.

(** [needle in hay] *)
Fixpoint str_contains (needle hay : string) : bool :=
  String.prefix needle hay ||
  match hay with
  | EmptyString => false
  | String _ rest => str_contains needle rest
  end.

(** A value of the hand-written condition dicts: a text or a list of texts. *)
Inductive info_value :=
  | Text (s : string)
  | Items (l : list string).

Definition info := list (string * info_value).

(** ** routes/diagnosis.py: the results view, its helpers, the JSON upload *)

Module DiagnosisViews.

Import Groq Model Preprocessing Diagnosis.

Local Open Scope string_scope.

(** The table of [get_condition_info]. *)
Definition conditions : list (string * info) :=
  [
  ("actinic keratosis",
    [
     ("name", Text "Actinic Keratosis");
     ("description", Text "Actinic keratoses are dry scaly patches of skin that have been damaged by the sun. The patches are not usually serious, but there's a small chance they could become skin cancer.");
     ("severity", Text "Moderate");
     ("treatments", Items
       ["Prescription creams and gels";
        "Freezing the patches (cryotherapy)";
        "Surgery to cut out or scrape away the patches";
        "Photodynamic therapy (PDT)"]);
     ("learn_more_url", Text "https://www.nhs.uk/conditions/actinic-keratoses")]);
  ("basal cell carcinoma",
    [
     ("name", Text "Basal Cell Carcinoma");
     ("description", Text "Basal cell carcinoma is a type of skin cancer that begins in the basal cells — a type of cell within the skin that produces new skin cells as old ones die off.");
     ("severity", Text "High");
     ("symptoms", Items
       ["A shiny, skin-colored bump that's translucent";
        "A brown, black or blue lesion with a raised border";
        "A flat, scaly patch with a raised edge";
        "A white, waxy, scar-like lesion"]);
     ("learn_more_url", Text "https://www.mayoclinic.org/diseases-conditions/basal-cell-carcinoma/symptoms-causes/syc-20354187")]);
  ("melanoma",
    [
     ("name", Text "Melanoma");
     ("description", Text "Melanoma, the most serious type of skin cancer, develops in the cells that produce melanin — the pigment that gives your skin its color.");
     ("severity", Text "Very High");
     ("warning_signs", Items
       ["A change in an existing mole";
        "The development of a new pigmented growth on your skin"]);
     ("learn_more_url", Text "https://www.mayoclinic.org/diseases-conditions/melanoma/symptoms-causes/syc-20374884")])].

Definition common_recommendations : list string :=
  ["Schedule an appointment with a dermatologist for a professional evaluation";
   "Take clear photos of the affected area to show your doctor";
   "Protect your skin from sun exposure and use SPF 30+ sunscreen daily";
   "Perform regular skin self-examinations"].

Definition condition_specific : list (string * list string) :=
  [
  ("actinic keratosis",
    ["Avoid direct sun exposure, especially during peak hours (10 AM to 4 PM)";
     "Use skin moisturizers regularly to reduce dryness"]);
  ("basal cell carcinoma",
    ["Seek medical attention within the next 2-3 weeks";
     "Avoid picking at or irritating the lesion"]);
  ("melanoma",
    ["Seek medical attention as soon as possible (within 1 week)";
     "Check for any other suspicious spots on your skin"])].

Section Helpers.

(** [str.lower] and [str.title] *)
Variable lower : string -> string.
Variable title : string -> string.
(** [url_for] *)
Variable url_for : string -> string.

Definition default_info (condition_name : string) : info :=
  [("name", Text (title condition_name));
   ("description", Text "A skin condition that requires professional evaluation.");
   ("severity", Text "Unknown");
   ("learn_more_url", Text (url_for "education.conditions"))].

Definition get_condition_info (condition_name : string) : info :=
  match assoc (lower condition_name) conditions with
  | Some condition => condition
  | None => default_info condition_name
  end.

Definition generate_recommendations (condition_name : string) : list string :=
  let specific_recs :=
    match assoc (lower condition_name) condition_specific with
    | Some recs => recs
    | None => []
    end in
  common_recommendations ++ specific_recs.

(** What the results view answers: a redirect, or the rendered page with
    the three values handed to the template. *)
Inductive ResultsResponse :=
  | results_redirect (endpoint : string)
  | results_page (result : DiagnosisResult) (condition_info : info)
                 (recommendations : list string).

Definition results (st : AppState) : ResultsResponse * AppState :=
  match session_diagnosis_result st with
  | None =>
      (results_redirect "diagnosis.index",
       flash "No diagnosis results found. Please upload an image first."
             "error" st)
  | Some result =>
      (results_page result
                    (get_condition_info (dr_prediction result))
                    (generate_recommendations (dr_prediction result)),
       st)
  end.

End Helpers.

(** The JSON body of [api_upload]: [{'success': True, 'result': ...}] with
    the prediction and the two file names added to it, or
    [{'success': False, 'error': ...}]. *)
Inductive ApiBody :=
  | api_success (result : PredictionResult)
                (filename original_filename : string)
  | api_failure (error : string).

Section ApiUpload.

Variable allowed_file : string -> bool.
Variable secure_filename : string -> string.
Variable splitext_ext : string -> string.
Variable uuid4 : string.
Variable upload_folder_writable : bool.
Variable decode : string -> outcome PILImage.
Variable resample : PILImage -> nat * nat -> outcome (list Z).
Variable load_h5 : outcome KerasModel.
Variable compile : KerasModel -> outcome unit.
Variable saved_model_dir_exists : bool.
Variable load_saved_model : outcome KerasModel.
Variable create_dummy_model : outcome KerasModel.
Variable current_app_config : outcome Config.
Variable requests_post : Request -> outcome Response.
Variable json_loads_str : string -> outcome json.

(** Lines 138-157: the guarded part; the body and the status. *)
Definition api_diagnose (unique_filename original_filename file_path : string)
    (st : AppState) : ApiBody * Z * AppState :=
  match preprocess_image (Image_open decode (disk st)) resample file_path
                         default_target_size with
  | Raise e => (api_failure (exn_str e), 500%Z, st)
  | Return preprocessed_image =>
      let '(prediction_result, cache') :=
        predict_image load_h5 compile saved_model_dir_exists
                      load_saved_model create_dummy_model
                      current_app_config requests_post json_loads_str
                      preprocessed_image (model_cache st) in
      let st := mk_state (session_diagnosis_result st) (flashed st)
                         (disk st) cache' in
      match prediction_result with
      | Raise e => (api_failure (exn_str e), 500%Z, st)
      | Return r =>
          (api_success r unique_filename original_filename, 200%Z, st)
      end
  end.

Definition api_upload (request : HttpRequest) (st : AppState)
  : outcome (ApiBody * Z * AppState) :=
  match request_file request with
  | None => Return (api_failure "No file part", 400%Z, st)
  | Some file =>
      if String.eqb (filename file) EmptyString
      then Return (api_failure "No selected file", 400%Z, st)
      else if allowed_file (filename file) then
        let original_filename := secure_filename (filename file) in
        let file_extension := splitext_ext original_filename in
        let unique_filename := uuid4 ++ file_extension in
        config <- current_app_config ;;
        let file_path := UPLOAD_FOLDER config ++ "/" ++ unique_filename in
        st <- file_save upload_folder_writable file file_path st ;;
        Return (api_diagnose unique_filename original_filename file_path st)
      else
        Return (api_failure
                  "File type not allowed. Please upload a JPG, JPEG, or PNG image.",
                400%Z, st)
  end.

End ApiUpload.

End DiagnosisViews.

(** ** routes/education.py: the condition catalogue *)

Module Education.

Local Open Scope string_scope.

Record Condition := mk_condition {
  c_id : string;
  c_name : string;
  c_image : string;
  c_description : string;
  c_severity : string;
  c_prevalence : string;
  c_related : list string;
  c_more : list (string * info_value) }.

Definition get_all_conditions : list Condition :=
  [
  mk_condition "actinic-keratosis" "Actinic Keratosis"
    "conditions/actinic-keratosis.jpg"
    "Actinic keratoses are dry scaly patches of skin that have been damaged by the sun."
    "Moderate" "Common"
    ["squamous-cell-carcinoma"; "basal-cell-carcinoma"] [];
  mk_condition "basal-cell-carcinoma" "Basal Cell Carcinoma"
    "conditions/basal-cell-carcinoma.jpg"
    "Basal cell carcinoma is a type of skin cancer that begins in the basal cells — a type of cell within the skin that produces new skin cells as old ones die off."
    "High" "Very common"
    ["squamous-cell-carcinoma"; "actinic-keratosis"] [];
  mk_condition "dermatofibroma" "Dermatofibroma"
    "conditions/dermatofibroma.jpg"
    "Dermatofibromas are harmless growths within the skin that usually have a small diameter."
    "Low" "Common"
    ["nevus"] [];
  mk_condition "melanoma" "Melanoma"
    "conditions/melanoma.jpg"
    "Melanoma, the most serious type of skin cancer, develops in the cells that produce melanin — the pigment that gives your skin its color."
    "Very high" "Less common"
    ["nevus"; "basal-cell-carcinoma"] [];
  mk_condition "nevus" "Nevus"
    "conditions/nevus.jpg"
    "Nevus (plural: nevi) is the medical term for a mole. Nevi are very common. Most people have between 10 and 40."
    "Low" "Very common"
    ["melanoma"; "dermatofibroma"] [];
  mk_condition "pigmented-benign-keratosis" "Pigmented Benign Keratosis"
    "conditions/pigmented-benign-keratosis.jpg"
    "Pigmented benign keratosis refers to a group of non-cancerous skin growths that appear as thickened, wartlike lesions on the skin."
    "Low" "Common"
    ["seborrheic-keratosis"; "actinic-keratosis"] [];
  mk_condition "seborrheic-keratosis" "Seborrheic Keratosis"
    "conditions/seborrheic-keratosis.jpg"
    "A seborrheic keratosis is a common noncancerous skin growth. People tend to get more of them as they get older."
    "Low" "Very common"
    ["pigmented-benign-keratosis"] [];
  mk_condition "squamous-cell-carcinoma" "Squamous Cell Carcinoma"
    "conditions/squamous-cell-carcinoma.jpg"
    "Squamous cell carcinoma of the skin is a common form of skin cancer that develops in the squamous cells that make up the middle and outer layers of the skin."
    "High" "Common"
    ["basal-cell-carcinoma"; "actinic-keratosis"] [];
  mk_condition "vascular-lesion" "Vascular Lesion"
    "conditions/vascular-lesion.jpg"
    "Vascular lesions are relatively common abnormalities of the skin and underlying tissues, more commonly known as birthmarks."
    "Varies" "Less common"
    [] []].

Definition details_actinic_keratosis : list (string * info_value) :=
  [
   ("detailed_description", Text "
                Actinic keratoses (also called solar keratoses) are dry scaly patches of skin that have been damaged by the sun.
                The patches are not usually serious. But there's a small chance they could become skin cancer, so it's important to avoid further damage to your skin.
                ");
   ("treatments", Items
     ["Prescription creams and gels";
      "Freezing the patches (cryotherapy)";
      "Surgery to cut out or scrape away the patches";
      "Photodynamic therapy (PDT)"])].

Definition details_melanoma : list (string * info_value) :=
  [
   ("detailed_description", Text "
                Melanoma, the most serious type of skin cancer, develops in the cells (melanocytes) that produce melanin — the pigment that gives your skin its color.
                Melanoma can also form in your eyes and, rarely, inside your body, such as in your nose or throat. The exact cause of all melanomas isn't clear,
                but exposure to ultraviolet (UV) radiation from sunlight or tanning lamps and beds increases your risk of developing melanoma.
                ");
   ("warning_signs", Items
     ["A change in an existing mole";
      "The development of a new pigmented or unusual-looking growth on your skin"]);
   ("hidden_melanomas", Items
     ["Melanoma under a nail";
      "Melanoma in the mouth, digestive tract, urinary tract or vagina";
      "Melanoma in the eye"])].

(** The loop [for condition in all_conditions: if condition['id'] == ...]:
    the first condition with the id. *)
Fixpoint find_condition (condition_id : string) (all_conditions : list Condition)
  : option Condition :=
  match all_conditions with
  | [] => None
  | condition :: rest =>
      if String.eqb (c_id condition) condition_id then Some condition
      else find_condition condition_id rest
  end.

Definition with_more (condition : Condition)
    (more : list (string * info_value)) : Condition :=
  mk_condition (c_id condition) (c_name condition) (c_image condition)
               (c_description condition) (c_severity condition)
               (c_prevalence condition) (c_related condition)
               (c_more condition ++ more).

(** Lines 305-332: the entries added to the condition found. *)
Definition add_details (condition_id : string) (condition : Condition)
  : Condition :=
  if String.eqb condition_id "actinic-keratosis"
  then with_more condition details_actinic_keratosis
  else if String.eqb condition_id "melanoma"
  then with_more condition details_melanoma
  else condition.

Definition get_condition_by_id (condition_id : string) : option Condition :=
  option_map (add_details condition_id)
             (find_condition condition_id get_all_conditions).

Definition get_related_conditions (condition_id : string) : list Condition :=
  let all_conditions := get_all_conditions in
  match find_condition condition_id all_conditions with
  | None => []
  | Some current_condition =>
      flat_map (fun related_id =>
                  match find_condition related_id all_conditions with
                  | Some condition => [condition]
                  | None => []
                  end)
               (c_related current_condition)
  end.

(** [condition_detail]: 404, or the page with the condition and the
    conditions related to it. *)
Inductive DetailResponse :=
  | abort_404
  | detail_page (condition : Condition) (related_conditions : list Condition).

Definition condition_detail (condition_id : string) : DetailResponse :=
  match get_condition_by_id condition_id with
  | None => abort_404
  | Some condition =>
      detail_page condition (get_related_conditions condition_id)
  end.

(** [list.sort] is stable: insertion from the right, each element going in
    front of the first one it may precede. *)
Fixpoint insert_by {A} (precedes : A -> A -> bool) (x : A) (l : list A) : list A :=
  match l with
  | [] => [x]
  | y :: rest => if precedes x y then x :: y :: rest
                 else y :: insert_by precedes x rest
  end.

Definition sort_by {A} (precedes : A -> A -> bool) (l : list A) : list A :=
  fold_right (insert_by precedes) [] l.

(** [l.sort(key=key, reverse=True)] with integer keys. *)
Definition sort_descending {A} (key : A -> Z) (l : list A) : list A :=
  sort_by (fun x y => (key y <=? key x)%Z) l.

(** [l.sort(key=key)] with text keys. *)
Definition sort_ascending {A} (key : A -> string) (l : list A) : list A :=
  sort_by (fun x y => String.leb (key x) (key y)) l.

Definition severity_order : list (string * Z) :=
  [("low", 1); ("moderate", 2); ("high", 3); ("very high", 4)]%Z.

Definition prevalence_order : list (string * Z) :=
  [("rare", 1); ("less common", 2); ("common", 3); ("very common", 4)]%Z.

(** [order.get(k, 0)] *)
Definition order_get (order : list (string * Z)) (k : string) : Z :=
  match assoc k order with Some n => n | None => 0%Z end.

Section Conditions.

(** [str.lower] *)
Variable lower : string -> string.
(** [needle in hay] on texts *)
Variable contains : string -> string -> bool.

Definition severity_key (x : Condition) : Z :=
  order_get severity_order (lower (c_severity x)).

Definition prevalence_key (x : Condition) : Z :=
  order_get prevalence_order (lower (c_prevalence x)).

(** The [conditions] view, from the two query parameters (absent or
    given) to the three values handed to the template. *)
Definition conditions (args_search args_sort : option string)
  : list Condition * string * string :=
  let search_query :=
    lower (match args_search with Some q => q | None => EmptyString end) in
  let sort_by := match args_sort with Some k => k | None => "name" end in
  let all_conditions := get_all_conditions in
  let filtered_conditions :=
    if String.eqb search_query EmptyString then all_conditions
    else filter (fun c => contains search_query (lower (c_name c)))
                all_conditions in
  let filtered_conditions :=
    if String.eqb sort_by "severity"
    then sort_descending severity_key filtered_conditions
    else if String.eqb sort_by "prevalence"
    then sort_descending prevalence_key filtered_conditions
    else sort_ascending c_name filtered_conditions in
  (filtered_conditions, search_query, sort_by).

End Conditions.

End Education.

(** ** app.py: the [capitalize_all] template filter *)

Module App.

Local Open Scope string_scope.

(** [c.isspace()] on an ASCII character: tab to carriage return, the four
    separators 28-31, and the blank. *)
Definition is_space (c : ascii) : bool :=
  let n := nat_of_ascii c in
  (((9 <=? n) && (n <=? 13)) || ((28 <=? n) && (n <=? 32)))%nat.

(** [text.split()]: the maximal runs of characters that are not spaces;
    [word] is the run being read. *)
Fixpoint split_from (word text : string) : list string :=
  match text with
  | EmptyString => if String.eqb word EmptyString then [] else [word]
  | String c rest =>
      if is_space c
      then if String.eqb word EmptyString then split_from EmptyString rest
           else word :: split_from EmptyString rest
      else split_from (word ++ String c EmptyString) rest
  end.

Definition str_split (text : string) : list string := split_from EmptyString text.

(** [word.capitalize()] *)
Definition str_capitalize (word : string) : string :=
  match word with
  | EmptyString => EmptyString
  | String c rest => String (upper_char c) (str_lower rest)
  end.

Definition capitalize_all (text : string) : string :=
  String.concat " " (map str_capitalize (str_split text)).

(** Texts of ASCII characters, on which the definitions above are what
    Python computes. *)
Fixpoint ascii_text (text : string) : bool :=
  match text with
  | EmptyString => true
  | String c rest => (nat_of_ascii c <? 128)%nat && ascii_text rest
  end.

End App.

(** ** Further notions and sample data for the properties below *)

(** A word: not empty and free of spaces. *)
Fixpoint spaceless (s : string) : bool :=
  match s with
  | EmptyString => true
  | String c rest => negb (App.is_space c) && spaceless rest
  end.

Definition is_word (s : string) : Prop :=
  s <> EmptyString /\ spaceless s = true.

(** An array holds as many elements as its shape announces. *)
Definition well_formed {A} (a : ndarray A) : Prop :=
  length (data a) = prod_shape (shape a).

Module Samples.

Import Groq Model Preprocessing Diagnosis.

(** A 2x1 RGBA image: a red pixel, half transparent, and a blue one. *)
Definition rgba_pixels : list (Z * Z * Z * Z) :=
  [(255, 0, 0, 128); (0, 0, 255, 255)]%Z.

Definition rgba_image : PILImage :=
  mk_image 4 (2%nat, 1%nat) [255; 0; 0; 128; 0; 0; 255; 255]%Z.

(** A 1x2 grey image with an alpha band (PIL mode LA). *)
Definition la_image : PILImage :=
  mk_image 2 (1%nat, 2%nat) [10; 255; 20; 255]%Z.

(** A 2x1 grey image (PIL mode L). *)
Definition grey_image : PILImage := mk_image 1 (2%nat, 1%nat) [10; 20]%Z.

Definition open_sample (path : string) : outcome PILImage :=
  if String.eqb path "rgba.png" then Return rgba_image
  else if String.eqb path "la.png" then Return la_image
  else if String.eqb path "grey.png" then Return grey_image
  else Raise (mk_exn OSError "No such file or directory").

(** Resizing to the size the image already has. *)
Definition keep (img : PILImage) (size : nat * nat) : outcome (list Z) :=
  Return (im_data img).

(** Replies of the enrichment API. *)
Definition post_unavailable (_ : Request) : outcome Response :=
  Return (mk_response 503 "Service Unavailable" (Return JNull)).

Definition post_object (_ : Request) : outcome Response :=
  Return (mk_response 200 EmptyString (Return (Demo.chat_reply "{}"))).

Definition post_wrapped (_ : Request) : outcome Response :=
  Return (mk_response 200 EmptyString
                      (Return (Demo.chat_reply "Here it is: {} - take care"))).


(** A network that rejects its input, and one with two outputs only. *)
Definition failing_classifier : KerasModel :=
  fun _ => Raise (mk_exn ValueError "Input 0 of layer is incompatible with the layer").

Definition binary_classifier : KerasModel :=
  fun _ => Return [[1 # 4; 3 # 4]].

(** The last four characters of a file name. *)
Definition extension (name : string) : string :=
  substring (String.length name - 4) 4 name.

(** An upload of two grey pixels. *)
Definition two_pixel_upload : HttpRequest :=
  mk_http_request (Some (mk_file "lesion.png" "ab")).

End Samples.

(** * Properties *)

Import Preprocessing Groq Model Diagnosis.

(** ** Outcomes *)

Lemma bind_Return_inv {A B} (c : outcome A) (k : A -> outcome B) b :
  bind c k = Return b -> exists a, c = Return a /\ k a = Return b.
Proof. destruct c as [a|e]; simpl; [eauto | discriminate]. Qed.

Lemma bind_Raise_inv {A B} (c : outcome A) (k : A -> outcome B) e :
  bind c k = Raise e ->
  c = Raise e \/ exists a, c = Return a /\ k a = Raise e.
Proof. destruct c as [a|e']; simpl; [eauto | intros [= ->]; auto]. Qed.

Lemma try_except_returns {A} (c : outcome A) h :
  (forall e, returns (h e)) -> returns (try_except c h).
Proof.
  intros Hh; destruct c as [a|e]; simpl; [exists a; reflexivity | apply Hh].
Qed.

Lemma try_except_reraise {A} (c : outcome A) :
  try_except c (fun e => Raise e) = c.
Proof. destruct c; reflexivity. Qed.

Lemma In_firstn {A} n (l : list A) x : In x (firstn n l) -> In x l.
Proof.
  intros H; rewrite <- (firstn_skipn n l); apply in_or_app; now left.
Qed.

Lemma In_skipn {A} n (l : list A) x : In x (skipn n l) -> In x l.
Proof.
  intros H; rewrite <- (firstn_skipn n l); apply in_or_app; now right.
Qed.

(** ** preprocess_image *)

Section PreprocessImageFacts.

Import Preprocessing.

Variable Image_open : string -> outcome PILImage.
Variable resample : PILImage -> nat * nat -> outcome (list Z).

Lemma div255_unit_interval z : eight_bit z -> unit_interval (inject_Z z / 255).
Proof.
  intros [H0 H1]; split; unfold Qle, Qdiv, Qinv, Qmult, inject_Z; simpl; lia.
Qed.

Lemma slice_last_Forall {A} (P : A -> Prop) c k (d : list A) :
  Forall P d -> Forall P (slice_last c k d).
Proof.
  intros Hd; unfold slice_last.
  apply Forall_flat_map, Forall_forall; intros i _.
  apply Forall_forall; intros x Hx.
  apply In_firstn, In_skipn in Hx.
  revert x Hx; now apply Forall_forall.
Qed.

Lemma to_three_channels_spec img :
  In (im_bands img) [1; 3; 4]%nat ->
  exists a,
    to_three_channels (np_array img) = Return a /\
    shape a = [snd (im_size img); fst (im_size img); 3%nat] /\
    (Forall eight_bit (im_data img) -> Forall eight_bit (data a)).
Proof.
  destruct img as [b [w h] d]; unfold to_three_channels, np_array; simpl.
  intros [<-|[<-|[<-|[]]]]; simpl.
  - eexists; split; [reflexivity|]; split; [reflexivity|].
    simpl; intros Hd. apply Forall_flat_map.
    eapply Forall_impl; [|exact Hd]; intros z Hz; repeat (constructor; [exact Hz|]); constructor.
  - eexists; split; [reflexivity|]; split; [reflexivity|]; auto.
  - eexists; split; [reflexivity|]; split; [reflexivity|].
    simpl; apply slice_last_Forall.
Qed.

(** X1.  What the function does on 8-bit images of one, three or four bands:
    the two entries of [target_size] come back in the opposite order. *)
Lemma preprocess_image_shape path target_size img d :
  Image_open path = Return img ->
  In (im_bands img) [1; 3; 4]%nat ->
  resample img target_size = Return d ->
  Forall eight_bit d ->
  exists arr,
    preprocess_image Image_open resample path target_size = Return arr /\
    shape arr = [1%nat; snd target_size; fst target_size; 3%nat] /\
    Forall unit_interval (data arr).
Proof.
  intros Hopen Hb Hres Hd.
  unfold preprocess_image, preprocess_image_body, resize.
  rewrite Hopen; simpl; rewrite Hres; simpl.
  destruct (to_three_channels_spec (mk_image (im_bands img) target_size d) Hb)
    as (a & Ha & Hshape & Hdata).
  rewrite Ha; simpl. eexists; split; [reflexivity|]; split.
  - simpl; now rewrite Hshape.
  - simpl. apply Forall_map.
    eapply Forall_impl; [|exact (Hdata Hd)].
    intros z Hz; now apply div255_unit_interval.
Qed.

(** C1.  With [target_size = (2, 1)], documented as (height, width), an
    RGB image comes back with shape (1, 1, 2, 3): one row of two pixels,
    not the two rows of one pixel that (1, h, w, 3) asks for. *)
Theorem preprocess_image_non_square_target path img d :
  Image_open path = Return img ->
  im_bands img = 3%nat ->
  resample img (2%nat, 1%nat) = Return d ->
  exists arr,
    preprocess_image Image_open resample path (2%nat, 1%nat) = Return arr /\
    shape arr = [1; 1; 2; 3]%nat /\
    shape arr <> [1; 2; 1; 3]%nat.
Proof.
  intros Hopen Hb Hres.
  unfold preprocess_image, preprocess_image_body, resize.
  rewrite Hopen; simpl; rewrite Hres; simpl.
  unfold to_three_channels, np_array; simpl; rewrite Hb; simpl.
  eexists; split; [reflexivity|]; split; [reflexivity | discriminate].
Qed.

(** A failure of any step of the body reaches the caller unchanged. *)
Lemma preprocess_image_propagates path target_size e :
  preprocess_image_body Image_open resample path target_size = Raise e ->
  preprocess_image Image_open resample path target_size = Raise e.
Proof. unfold preprocess_image; intros ->; reflexivity. Qed.

(** The failures of the body are those of its steps. *)
Lemma preprocess_image_body_fails_iff path target_size e :
  preprocess_image_body Image_open resample path target_size = Raise e <->
  Image_open path = Raise e \/
  exists img, Image_open path = Return img /\
    (resample img target_size = Raise e \/
     exists d, resample img target_size = Return d /\
       to_three_channels (np_array (mk_image (im_bands img) target_size d))
       = Raise e).
Proof.
  unfold preprocess_image_body, resize.
  destruct (Image_open path) as [img|e0] eqn:Eo; simpl.
  - destruct (resample img target_size) as [d|e1] eqn:Er; simpl.
    + destruct (to_three_channels _) as [a|e2] eqn:E; simpl; split.
      * discriminate.
      * intros [H|(i & Hi & [H|(d' & Hd & H)])]; congruence.
      * intros [= ->]; right; eexists; split; [reflexivity|].
        right; eexists; split; [exact Er|exact E].
      * intros [H|(i & Hi & [H|(d' & Hd & H)])]; congruence.
    + split.
      * intros [= ->]; right; eexists; split; [reflexivity|]; now left.
      * intros [H|(i & Hi & [H|(d' & H & _)])]; congruence.
  - split.
    + intros [= ->]; now left.
    + intros [H|(i & H & _)]; congruence.
Qed.

End PreprocessImageFacts.

Lemma preprocess_image_non_square_target_witness :
  exists arr,
    Preprocessing.preprocess_image Demo.open_lesion Demo.nearest "lesion.png"
                                   (2%nat, 1%nat) = Return arr /\
    shape arr = [1; 1; 2; 3]%nat /\
    shape arr <> [1; 2; 1; 3]%nat.
Proof.
  apply (@preprocess_image_non_square_target Demo.open_lesion Demo.nearest
           "lesion.png" Demo.lesion_rgb [16; 16; 16; 16; 16; 16]%Z);
    reflexivity.
Defined.

(** ** extract_features *)

Section ExtractFeaturesFacts.

Import Preprocessing.

Variable cvtColor : ndarray Z -> ColorConversionCode -> outcome (ndarray Z).
Variable threshold : ndarray Z -> outcome (Q * ndarray Z).
Variable findContours : ndarray Z -> outcome (list contour).
Variable contourArea : contour -> Q.
Variable arcLength : contour -> Q.
Variable boundingRect : contour -> Z * Z * Z * Z.
Variable convexHull : contour -> contour.
Variable np_sqrt : Q -> Q.

Local Abbreviation extract_features :=
  (Preprocessing.extract_features cvtColor threshold findContours contourArea
                                  arcLength boundingRect convexHull np_sqrt).
Local Abbreviation extract_features_body :=
  (Preprocessing.extract_features_body cvtColor threshold findContours
                                       contourArea arcLength boundingRect
                                       convexHull np_sqrt).
Local Abbreviation load_bgr := (Preprocessing.load_bgr cvtColor).
Local Abbreviation measure :=
  (Preprocessing.measure cvtColor threshold findContours np_sqrt).
Local Abbreviation shape_features :=
  (Preprocessing.shape_features contourArea arcLength boundingRect convexHull).

Lemma Qpositive_true x : Qpositive x = true -> (0 < x)%Q.
Proof.
  unfold Qpositive; intros H. apply Qnot_le_lt; intros Hle.
  apply Qle_bool_iff in Hle. rewrite Hle in H; discriminate.
Qed.

Lemma Qpositive_false x : Qpositive x = false -> (x <= 0)%Q.
Proof.
  unfold Qpositive; intros H. apply Qle_bool_iff.
  destruct (Qle_bool x 0); [reflexivity | discriminate].
Qed.

Lemma py_truediv_nonzero a b :
  ~ (b == 0)%Q -> py_truediv a b = Return (a / b)%Q.
Proof.
  intros Hb; unfold py_truediv.
  destruct (Qeq_bool b 0) eqn:E; [|reflexivity].
  apply Qeq_bool_iff in E; contradiction.
Qed.

Lemma circularity_of_spec area perimeter :
  exists c,
    circularity_of area perimeter = Return c /\
    ((0 < perimeter)%Q -> c = (4 * np_pi * area / perimeter ^ 2)%Q) /\
    ((perimeter == 0)%Q -> c = 0%Q).
Proof.
  unfold circularity_of. destruct (Qpositive perimeter) eqn:E.
  - apply Qpositive_true in E.
    rewrite py_truediv_nonzero.
    + eexists; split; [reflexivity|]; split; [reflexivity|].
      intros H0; rewrite H0 in E; now apply Qlt_irrefl in E.
    + simpl. intros H0.
      assert (Hpos : (0 < perimeter * perimeter)%Q)
        by (apply Qmult_lt_0_compat; exact E).
      rewrite H0 in Hpos; now apply Qlt_irrefl in Hpos.
  - apply Qpositive_false in E.
    exists 0%Q; split; [reflexivity|]; split; [|reflexivity].
    intros Hpos; exfalso; apply (Qlt_irrefl 0).
    eapply Qlt_le_trans; eassumption.
Qed.

Lemma aspect_ratio_of_spec w h :
  exists r,
    aspect_ratio_of w h = Return r /\
    ((0 < h)%Z -> r = (inject_Z w / inject_Z h)%Q) /\
    (h = 0%Z -> r = 0%Q).
Proof.
  unfold aspect_ratio_of. destruct (h >? 0)%Z eqn:E.
  - rewrite py_truediv_nonzero.
    + eexists; split; [reflexivity|]; split; [reflexivity|]; lia.
    + unfold Qeq, inject_Z; simpl; lia.
  - exists 0%Q; split; [reflexivity|]; split; [lia | reflexivity].
Qed.

Lemma solidity_of_spec area hull_area :
  exists s,
    solidity_of area hull_area = Return s /\
    ((0 < hull_area)%Q -> s = (area / hull_area)%Q) /\
    ((hull_area == 0)%Q -> s = 0%Q).
Proof.
  unfold solidity_of. destruct (Qpositive hull_area) eqn:E.
  - apply Qpositive_true in E.
    rewrite py_truediv_nonzero.
    + eexists; split; [reflexivity|]; split; [reflexivity|].
      intros H0; rewrite H0 in E; now apply Qlt_irrefl in E.
    + intros H0; rewrite H0 in E; now apply Qlt_irrefl in E.
  - apply Qpositive_false in E.
    exists 0%Q; split; [reflexivity|]; split; [|reflexivity].
    intros Hpos; exfalso; apply (Qlt_irrefl 0).
    eapply Qlt_le_trans; eassumption.
Qed.

(** The shape analysis returns on every list of contours: none of its
    three divisions is reached with a zero divisor. *)
Lemma shape_features_returns contours : returns (shape_features contours).
Proof.
  unfold Preprocessing.shape_features. destruct contours as [|c0 rest].
  - eexists; reflexivity.
  - set (k := py_max_by contourArea c0 rest).
    destruct (circularity_of_spec (contourArea k) (arcLength k)) as (c & -> & _).
    simpl. destruct (boundingRect k) as [[[x y] w] h].
    destruct (aspect_ratio_of_spec w h) as (r & -> & _). simpl.
    destruct (solidity_of_spec (contourArea k) (contourArea (convexHull k)))
      as (s & -> & _).
    simpl. eexists; reflexivity.
Qed.

(** C4.  [extract_features] returns on every input, an object that is no
    array included, and whenever a step of its body raises [e] the value
    returned has empty colour, texture and shape dicts and carries
    [str(e)] as its error. *)
Theorem extract_features_never_raises img_array :
  returns (extract_features img_array) /\
  forall e, extract_features_body img_array = Raise e ->
    extract_features img_array = Return (mk_features [] [] [] (Some (exn_str e))).
Proof.
  unfold Preprocessing.extract_features; split.
  - apply try_except_returns; intros e; eexists; reflexivity.
  - intros e ->; reflexivity.
Qed.

(** C7.  When the steps up to [findContours] succeed and no contour is
    found, the function returns, without an error entry, and the five
    shape values are all 0. *)
Theorem extract_features_no_contour img_array img_bgr color texture :
  load_bgr img_array = Return img_bgr ->
  measure img_bgr = Return (color, texture, []) ->
  exists fs,
    extract_features img_array = Return fs /\
    fs_error fs = None /\
    fs_shape fs = [("area", 0); ("perimeter", 0); ("circularity", 0);
                   ("aspect_ratio", 0); ("solidity", 0)]%string%Q /\
    forall key,
      In key ["area"; "perimeter"; "circularity"; "aspect_ratio"; "solidity"]%string ->
      assoc key (fs_shape fs) = Some 0%Q.
Proof.
  intros Hload Hm.
  unfold Preprocessing.extract_features, Preprocessing.extract_features_body.
  rewrite Hload; simpl; rewrite Hm; simpl.
  eexists; split; [reflexivity|]; split; [reflexivity|]; split; [reflexivity|].
  simpl; intros key [<-|[<-|[<-|[<-|[<-|[]]]]]]; reflexivity.
Qed.

(** C8.  When a contour is found, the function returns, without an error
    entry, the shape values of the largest contour, each ratio computed
    behind its guard; the shape analysis never divides by zero. *)
Theorem extract_features_guarded_divisions
    img_array img_bgr color texture c0 rest x y w h :
  load_bgr img_array = Return img_bgr ->
  measure img_bgr = Return (color, texture, c0 :: rest) ->
  let largest_contour := py_max_by contourArea c0 rest in
  let area := contourArea largest_contour in
  let perimeter := arcLength largest_contour in
  let hull_area := contourArea (convexHull largest_contour) in
  boundingRect largest_contour = (x, y, w, h) ->
  (exists circularity aspect_ratio solidity,
    extract_features img_array =
      Return (mk_features color texture
                [("area", area); ("perimeter", perimeter);
                 ("circularity", circularity);
                 ("aspect_ratio", aspect_ratio);
                 ("solidity", solidity)]%string None) /\
    ((0 < perimeter)%Q -> circularity = (4 * np_pi * area / perimeter ^ 2)%Q) /\
    ((perimeter == 0)%Q -> circularity = 0%Q) /\
    ((0 < h)%Z -> aspect_ratio = (inject_Z w / inject_Z h)%Q) /\
    (h = 0%Z -> aspect_ratio = 0%Q) /\
    ((0 < hull_area)%Q -> solidity = (area / hull_area)%Q) /\
    ((hull_area == 0)%Q -> solidity = 0%Q)) /\
  (forall contours e,
    shape_features contours <> Raise e).
Proof.
  intros Hload Hm k area perimeter hull_area Hrect. split.
  - destruct (circularity_of_spec area perimeter) as (c & Hc & Hc1 & Hc0).
    destruct (aspect_ratio_of_spec w h) as (r & Hr & Hr1 & Hr0).
    destruct (solidity_of_spec area hull_area) as (s & Hs & Hs1 & Hs0).
    exists c, r, s. split; [|tauto].
    unfold Preprocessing.extract_features, Preprocessing.extract_features_body.
    rewrite Hload; simpl; rewrite Hm; simpl.
    fold k area perimeter. rewrite Hc; simpl. rewrite Hrect, Hr; simpl.
    fold hull_area. rewrite Hs; reflexivity.
  - intros contours e He.
    destruct (shape_features_returns contours) as (d & Hd).
    rewrite Hd in He; discriminate.
Qed.

(** C3.  On a one-pixel image whose grey level is 16 the energy entry is
    0, not 16 * 16 / 1: the squares are taken in uint8 and 256 wraps to 0.
    The contrast entry is the standard deviation of the grey levels. *)
Theorem extract_features_energy_wraps img_array img_bgr color texture contours :
  load_bgr img_array = Return img_bgr ->
  cvtColor img_bgr COLOR_BGR2GRAY = Return (mk_ndarray [1; 1]%nat [16%Z]) ->
  measure img_bgr = Return (color, texture, contours) ->
  exists fs energy,
    extract_features img_array = Return fs /\
    fs_error fs = None /\
    assoc "contrast" (fs_texture fs) = Some (np_sqrt (np_var [16%Z])) /\
    assoc "energy" (fs_texture fs) = Some energy /\
    (energy == 0)%Q /\
    ~ (energy == inject_Z (16 * 16) / inject_Z 1)%Q.
Proof.
  intros Hload Hgray Hm.
  destruct (shape_features_returns contours) as (d & Hd).
  exists (mk_features color texture d None).
  unfold Preprocessing.extract_features, Preprocessing.extract_features_body.
  rewrite Hload; simpl; rewrite Hm; simpl.
  rewrite Hd; simpl.
  unfold Preprocessing.measure in Hm. rewrite Hgray in Hm; simpl in Hm.
  apply bind_Return_inv in Hm as (hsv & _ & Hm).
  apply bind_Return_inv in Hm as (col & _ & Hm).
  unfold texture_features, texture_contrast, texture_energy, np_std in Hm.
  simpl in Hm.
  apply bind_Return_inv in Hm as ([t th] & _ & Hm).
  apply bind_Return_inv in Hm as (cs & _ & Hm).
  injection Hm as _ <- _.
  eexists; split; [reflexivity|]; split; [reflexivity|].
  split; [reflexivity|]; split; [reflexivity|].
  split; [reflexivity | discriminate].
Qed.

End ExtractFeaturesFacts.

Lemma extract_features_no_contour_witness :
  exists fs,
    Demo.extract_features (Demo.grey_image 255) = Return fs /\
    fs_error fs = None /\
    fs_shape fs = [("area", 0); ("perimeter", 0); ("circularity", 0);
                   ("aspect_ratio", 0); ("solidity", 0)]%string%Q /\
    forall key,
      In key ["area"; "perimeter"; "circularity"; "aspect_ratio"; "solidity"]%string ->
      assoc key (fs_shape fs) = Some 0%Q.
Proof.
  eapply (@extract_features_no_contour Demo.cvtColor Demo.threshold
            Demo.findContours Demo.contourArea Demo.arcLength Demo.boundingRect
            Demo.convexHull Demo.np_sqrt (Demo.grey_image 255));
    reflexivity.
Defined.

Lemma extract_features_guarded_divisions_witness :
  let frame := [(0, 0); (0, 1); (1, 1); (1, 0)]%Z in
  let area := Demo.contourArea frame in
  let perimeter := Demo.arcLength frame in
  exists color texture circularity aspect_ratio solidity,
    Demo.extract_features Demo.dark_square =
      Return (mk_features color texture
                [("area", area); ("perimeter", perimeter);
                 ("circularity", circularity);
                 ("aspect_ratio", aspect_ratio);
                 ("solidity", solidity)]%string None) /\
    circularity = (4 * np_pi * area / perimeter ^ 2)%Q /\
    aspect_ratio = (inject_Z 2 / inject_Z 2)%Q /\
    solidity = (area / area)%Q.
Proof.
  intros frame area perimeter.
  edestruct (@extract_features_guarded_divisions Demo.cvtColor Demo.threshold
               Demo.findContours Demo.contourArea Demo.arcLength
               Demo.boundingRect Demo.convexHull Demo.np_sqrt
               Demo.dark_square)
    as [(c & r & s & Hret & Hc & _ & Hr & _ & Hs & _) _];
    [reflexivity | reflexivity | reflexivity |].
  do 2 eexists; exists c, r, s.
  split; [exact Hret|].
  split; [apply Hc; reflexivity|].
  split; [apply Hr; reflexivity|].
  apply Hs; reflexivity.
Defined.

Lemma extract_features_energy_wraps_witness :
  exists fs energy,
    Demo.extract_features (Demo.grey_pixel 16) = Return fs /\
    fs_error fs = None /\
    assoc "contrast" (fs_texture fs) = Some (Demo.np_sqrt (np_var [16%Z])) /\
    assoc "energy" (fs_texture fs) = Some energy /\
    (energy == 0)%Q /\
    ~ (energy == inject_Z (16 * 16) / inject_Z 1)%Q.
Proof.
  eapply (@extract_features_energy_wraps Demo.cvtColor Demo.threshold
            Demo.findContours Demo.contourArea Demo.arcLength Demo.boundingRect
            Demo.convexHull Demo.np_sqrt (Demo.grey_pixel 16));
    reflexivity.
Defined.

(** ** get_groq_analysis *)

Section GetGroqAnalysisFacts.

Variable current_app_config : outcome Config.
Variable requests_post : Request -> outcome Response.
Variable json_loads_str : string -> outcome json.

Local Abbreviation get_groq_analysis :=
  (Groq.get_groq_analysis current_app_config requests_post json_loads_str).
Local Abbreviation extract_braces := (Groq.extract_braces json_loads_str).

Lemma get_groq_analysis_never_raises predicted_class confidence :
  returns (get_groq_analysis predicted_class confidence).
Proof.
  unfold Groq.get_groq_analysis.
  apply try_except_returns; intros e; eexists; reflexivity.
Qed.

(** A network failure or time-out of the request gives an error marker. *)
Lemma get_groq_analysis_network_failure predicted_class confidence config e :
  current_app_config = Return config ->
  GROQ_API_KEY config <> EmptyString ->
  requests_post (chat_request (GROQ_API_KEY config) (GROQ_MODEL config)
                              predicted_class confidence) = Raise e ->
  get_groq_analysis predicted_class confidence = Return (error_marker (exn_str e)).
Proof.
  intros Hc Hk Hp. apply String.eqb_neq in Hk.
  unfold Groq.get_groq_analysis, get_groq_analysis_body.
  rewrite Hc; simpl; rewrite Hk, Hp; reflexivity.
Qed.

(** Any status other than 200 gives an error marker. *)
Lemma get_groq_analysis_bad_status predicted_class confidence config response :
  current_app_config = Return config ->
  GROQ_API_KEY config <> EmptyString ->
  requests_post (chat_request (GROQ_API_KEY config) (GROQ_MODEL config)
                              predicted_class confidence) = Return response ->
  status_code response <> 200%Z ->
  is_error_marker_result (get_groq_analysis predicted_class confidence).
Proof.
  intros Hc Hk Hp Hs. apply String.eqb_neq in Hk. apply Z.eqb_neq in Hs.
  unfold Groq.get_groq_analysis, get_groq_analysis_body, is_error_marker_result.
  rewrite Hc; simpl; rewrite Hk, Hp; simpl; rewrite Hs; simpl.
  eexists; split; [reflexivity | eexists; reflexivity].
Qed.

(** When the content does not parse but has a [{] followed later by a
    [}], the text from the one to the other is parsed instead, and a
    failure of that second parse gives an error marker. *)
Lemma extract_braces_found s :
  (0 <= str_find "{" s < str_rfind "}" s + 1)%Z ->
  extract_braces (JStr s) =
    match json_loads_str
            (str_slice s (str_find "{" s) (str_rfind "}" s + 1)) with
    | Return analysis => Return analysis
    | Raise _ => Return (error_marker "Failed to parse JSON from Groq response")
    end.
Proof.
  intros [H0 H1]; unfold Groq.extract_braces.
  replace (str_find "{" s >=? 0)%Z with true by (symmetry; lia).
  replace (str_rfind "}" s + 1 >? str_find "{" s)%Z with true
    by (symmetry; lia).
  simpl. destruct (json_loads_str _); reflexivity.
Qed.

(** C5.  A 200 reply whose content is not JSON and holds no [{] makes the
    function return [None]: the test of line 94 fails, nothing is
    returned from the handler, and no error marker is produced. *)
Theorem get_groq_analysis_prose_reply
    predicted_class confidence config response response_data s e :
  current_app_config = Return config ->
  GROQ_API_KEY config <> EmptyString ->
  requests_post (chat_request (GROQ_API_KEY config) (GROQ_MODEL config)
                              predicted_class confidence) = Return response ->
  status_code response = 200%Z ->
  resp_json response = Return response_data ->
  message_content response_data = Return (JStr s) ->
  json_loads_str s = Raise e ->
  exn_type e = JSONDecodeError ->
  str_find "{" s = (-1)%Z ->
  get_groq_analysis predicted_class confidence = Return JNull /\
  ~ is_error_marker JNull.
Proof.
  intros Hc Hk Hp Hs Hj Hm Hl He Hf. apply String.eqb_neq in Hk.
  split; [|intros [msg Hmsg]; discriminate].
  unfold Groq.get_groq_analysis, get_groq_analysis_body.
  rewrite Hc; simpl; rewrite Hk, Hp; simpl; rewrite Hs; simpl.
  rewrite Hj; simpl; rewrite Hm; simpl; rewrite Hl.
  unfold is_JSONDecodeError; rewrite He.
  unfold Groq.extract_braces; rewrite Hf; reflexivity.
Qed.

End GetGroqAnalysisFacts.

Lemma get_groq_analysis_prose_reply_witness :
  get_groq_analysis Demo.with_key Demo.post_prose Demo.json_loads_str
                    "melanoma" (3 # 5) = Return JNull /\
  ~ is_error_marker JNull.
Proof.
  eapply (@get_groq_analysis_prose_reply Demo.with_key Demo.post_prose
            Demo.json_loads_str "melanoma" (3 # 5));
    try reflexivity.
  discriminate.
Defined.

(** ** predict_image *)

Lemma round_half_even_bounds a b x :
  (inject_Z a <= x)%Q -> (x <= inject_Z b)%Q ->
  (a <= round_half_even x <= b)%Z.
Proof.
  intros Ha Hb.
  assert (Hfa : (a <= Qfloor x)%Z)
    by (rewrite <- (Qfloor_Z a); now apply Qfloor_resp_le).
  assert (Hfb : (Qfloor x <= b)%Z)
    by (rewrite <- (Qfloor_Z b); now apply Qfloor_resp_le).
  assert (Hhalf : (1 # 2 <= x - inject_Z (Qfloor x))%Q -> (Qfloor x + 1 <= b)%Z).
  { intros Hh. apply Z.le_succ_l. rewrite Zlt_Qlt.
    apply Qlt_le_trans with x; [|exact Hb]. lra. }
  unfold round_half_even.
  destruct (x - inject_Z (Qfloor x) ?= 1 # 2)%Q eqn:E.
  - apply Qeq_alt in E.
    destruct (Z.even (Qfloor x)); [lia|].
    split; [lia | apply Hhalf; rewrite E; apply Qle_refl].
  - lia.
  - apply Qgt_alt in E. split; [lia | apply Hhalf; now apply Qlt_le_weak].
Qed.

Lemma py_round2_percent x :
  (0 <= x)%Q -> (x <= 100)%Q -> (0 <= py_round2 x)%Q /\ (py_round2 x <= 100)%Q.
Proof.
  intros H0 H1; unfold py_round2.
  destruct (@round_half_even_bounds 0 10000 (x * 100)) as [Hl Hu].
  - change (inject_Z 0) with 0%Q; lra.
  - change (inject_Z 10000) with 10000%Q; lra.
  - rewrite Zle_Qle in Hl, Hu.
    change (inject_Z 0) with 0%Q in Hl.
    change (inject_Z 10000) with 10000%Q in Hu.
    unfold Qdiv; change (/ 100)%Q with (1 # 100)%Q.
    split; lra.
Qed.

Lemma argmax_from_spec rest :
  forall pre best best_i,
    nth_error pre best_i = Some best ->
    Forall (fun x => x <= best)%Q pre ->
    exists v,
      nth_error (pre ++ rest) (argmax_from best best_i (length pre) rest) = Some v /\
      Forall (fun x => x <= v)%Q (pre ++ rest).
Proof.
  induction rest as [|x rest IH]; intros pre best best_i Hnth Hall; simpl.
  - exists best; rewrite app_nil_r; auto.
  - replace (S (length pre)) with (length (pre ++ [x]))
      by (rewrite length_app; simpl; lia).
    replace (pre ++ x :: rest) with ((pre ++ [x]) ++ rest)
      by (rewrite <- app_assoc; reflexivity).
    destruct (Qpositive (x - best)) eqn:E.
    + assert (Hlt : (best < x)%Q).
      { unfold Qpositive in E. apply Qnot_le_lt; intros Hle.
        assert (Hb : Qle_bool (x - best) 0 = true) by (apply Qle_bool_iff; lra).
        rewrite Hb in E; discriminate. }
      apply IH.
      * rewrite nth_error_app2 by lia. now rewrite Nat.sub_diag.
      * apply Forall_app; split.
        -- eapply Forall_impl; [|exact Hall]. intros y Hy; simpl in Hy; lra.
        -- constructor; [apply Qle_refl | constructor].
    + assert (Hle : (x <= best)%Q).
      { unfold Qpositive in E.
        destruct (Qle_bool (x - best) 0) eqn:Hb; [|discriminate].
        apply Qle_bool_iff in Hb; lra. }
      apply IH.
      * rewrite nth_error_app1; [exact Hnth|].
        apply nth_error_Some; congruence.
      * apply Forall_app; split; [exact Hall|].
        constructor; [exact Hle | constructor].
Qed.

(** [np.argmax] returns the place of an element no other exceeds. *)
Lemma np_argmax_spec row i :
  np_argmax row = Return i ->
  exists v, nth_error row i = Some v /\ Forall (fun x => x <= v)%Q row.
Proof.
  destruct row as [|x rest]; simpl; [discriminate|]. intros [= <-].
  apply (@argmax_from_spec rest [x] x 0%nat).
  - reflexivity.
  - constructor; [apply Qle_refl | constructor].
Qed.

Lemma getitem_Return {A} (xs : list A) i x :
  getitem xs i = Return x -> nth_error xs i = Some x.
Proof.
  unfold getitem; destruct (nth_error xs i); [intros [= ->]; reflexivity | discriminate].
Qed.

(** A row that yields the nine probabilities has at least nine entries, and
    the dict pairs the labels with the first nine. *)
Lemma probabilities_from_class_labels row probs :
  probabilities_from row 0 class_labels = Return probs ->
  exists tl, row = map snd probs ++ tl /\ map fst probs = class_labels.
Proof.
  unfold class_labels.
  do 9 (destruct row as [|? row]; [discriminate|]).
  simpl. intros [= <-]. exists row. split; reflexivity.
Qed.

Section PredictWithFacts.

Variable current_app_config : outcome Config.
Variable requests_post : Request -> outcome Response.
Variable json_loads_str : string -> outcome json.

Local Abbreviation predict_with :=
  (Model.predict_with current_app_config requests_post json_loads_str).

(** The shape of every result the guarded block itself returns. *)
Lemma predict_with_Return model image_array r :
  predict_with model image_array = Return r ->
  exists m predictions row idx p label extra probs,
    model = Return m /\
    m image_array = Return predictions /\
    nth_error predictions 0 = Some row /\
    np_argmax row = Return idx /\
    nth_error row idx = Some p /\
    nth_error class_labels idx = Some label /\
    probabilities_from row 0 class_labels = Return probs /\
    r = mk_result label (py_round2 (p * 100)) (Z.of_nat idx) probs
                  (Some extra) None.
Proof.
  unfold Model.predict_with; intros H.
  apply bind_Return_inv in H as (m & Hm & H).
  apply bind_Return_inv in H as (predictions & Hp & H).
  apply bind_Return_inv in H as (row & Hrow & H).
  apply bind_Return_inv in H as (idx & Hidx & H).
  apply bind_Return_inv in H as (p & Hpv & H).
  apply bind_Return_inv in H as (label & Hlabel & H).
  apply bind_Return_inv in H as (extra & _ & H).
  apply bind_Return_inv in H as (probs & Hprobs & H).
  injection H as <-.
  exists m, predictions, row, idx, p, label, extra, probs.
  repeat split; auto using getitem_Return.
Qed.

(** The guarded block depends on the model only through its output on
    the tensor at hand. *)
Lemma predict_with_ext (m1 m2 : KerasModel) image_array :
  m1 image_array = m2 image_array ->
  predict_with (Return m1) image_array = predict_with (Return m2) image_array.
Proof. unfold Model.predict_with; simpl; intros ->; reflexivity. Qed.

End PredictWithFacts.

Lemma class_index_cases idx label :
  nth_error class_labels idx = Some label ->
  In (Z.of_nat idx) [-1; 0; 1; 2; 3; 4; 5; 6; 7; 8]%Z /\
  Z.of_nat idx <> (-1)%Z /\
  label <> "unknown"%string.
Proof.
  unfold class_labels.
  do 9 (destruct idx as [|idx];
        [simpl; intros [= <-]; repeat split; simpl; try tauto; try lia;
         discriminate |]).
  destruct idx; discriminate.
Qed.

Section PredictImageFacts.

Variable load_h5 : outcome KerasModel.
Variable compile : KerasModel -> outcome unit.
Variable saved_model_dir_exists : bool.
Variable load_saved_model : outcome KerasModel.
Variable create_dummy_model : outcome KerasModel.
Variable current_app_config : outcome Config.
Variable requests_post : Request -> outcome Response.
Variable json_loads_str : string -> outcome json.

Local Abbreviation predict_image :=
  (Model.predict_image load_h5 compile saved_model_dir_exists load_saved_model
                 create_dummy_model current_app_config requests_post
                 json_loads_str).
Local Abbreviation load_model :=
  (Model.load_model load_h5 compile saved_model_dir_exists load_saved_model
              create_dummy_model).

(** [predict_image] never raises. *)
Lemma predict_image_returns image_array cache :
  returns (fst (predict_image image_array cache)).
Proof.
  unfold Model.predict_image. destruct (load_model cache) as [model cache']; simpl.
  apply try_except_returns; intros e; eexists; reflexivity.
Qed.

(** C2, as amended.  [predict_image] returns on every tensor; the class
    index of the result is -1 or one of 0..8, and it is -1 exactly when the
    label is "unknown"; the confidence is between 0 and 100 whenever the
    outputs of the loaded model on the tensor are probabilities (as those
    of a softmax layer are). *)
Theorem predict_image_result_range image_array cache :
  exists r,
    fst (predict_image image_array cache) = Return r /\
    In (class_index r) [-1; 0; 1; 2; 3; 4; 5; 6; 7; 8]%Z /\
    (class_index r = (-1)%Z <-> prediction r = "unknown"%string) /\
    ((forall model predictions row p,
        fst (load_model cache) = Return model ->
        model image_array = Return predictions ->
        In row predictions -> In p row -> (0 <= p)%Q /\ (p <= 1)%Q) ->
     (0 <= confidence r)%Q /\ (confidence r <= 100)%Q).
Proof.
  unfold Model.predict_image.
  destruct (load_model cache) as [model cache'] eqn:El; simpl in *.
  destruct (Model.predict_with _ _ _ model image_array) as [r|e] eqn:Ep; simpl.
  - exists r; split; [reflexivity|].
    apply predict_with_Return in Ep
      as (m & predictions & row & idx & p & label & extra & probs
          & -> & Hm & Hrow & _ & Hp & Hlabel & _ & ->).
    simpl.
    destruct (class_index_cases _ Hlabel) as (Hin & Hne & Hunk).
    split; [exact Hin|].
    split; [split; intros; contradiction|].
    intros Hprob.
    destruct (Hprob m predictions row p eq_refl Hm) as [Hp0 Hp1];
      eauto using nth_error_In.
    apply py_round2_percent; lra.
  - exists (fallback_prediction e); split; [reflexivity|]; simpl.
    split; [auto|]. split; [split; reflexivity|].
    intros _; split; lra.
Qed.

(** C10.  In a result without an error entry, the confidence is
    [round(p * 100, 2)] for the probability [p] that the returned
    distribution gives the predicted label, the distribution has nine
    entries, and none of them exceeds [p]. *)
Theorem predict_image_confidence_of_max image_array cache r :
  fst (predict_image image_array cache) = Return r ->
  error r = None ->
  exists p,
    assoc (prediction r) (all_probabilities r) = Some p /\
    confidence r = py_round2 (p * 100) /\
    length (all_probabilities r) = 9%nat /\
    forall label q, In (label, q) (all_probabilities r) -> (q <= p)%Q.
Proof.
  unfold Model.predict_image.
  destruct (load_model cache) as [model cache']; simpl.
  destruct (Model.predict_with _ _ _ model image_array) as [r'|e] eqn:Ep; simpl;
    intros [= <-]; [|discriminate].
  intros _.
  apply predict_with_Return in Ep
    as (m & predictions & row & idx & p & label & extra & probs
        & _ & _ & _ & Hidx & Hp & Hlabel & Hprobs & ->).
  simpl. exists p.
  apply np_argmax_spec in Hidx as (v & Hv & Hmax).
  rewrite Hp in Hv; injection Hv as <-.
  apply probabilities_from_class_labels in Hprobs as (tl & -> & Hkeys).
  split; [|split; [reflexivity|split]].
  - clear Hmax. revert Hp Hlabel.
    destruct probs as [|[k0 q0] [|[k1 q1] [|[k2 q2] [|[k3 q3] [|[k4 q4]
      [|[k5 q5] [|[k6 q6] [|[k7 q7] [|[k8 q8] [|? ?]]]]]]]]]];
      try discriminate Hkeys.
    injection Hkeys as -> -> -> -> -> -> -> -> ->.
    do 9 (destruct idx as [|idx];
          [simpl; intros [= <-] [= <-]; reflexivity|]).
    simpl; destruct idx; discriminate.
  - rewrite <- (length_map fst), Hkeys; reflexivity.
  - intros l q Hin.
    assert (Hq : In q (map snd probs ++ tl))
      by (apply in_or_app; left; apply (in_map snd) in Hin; exact Hin).
    clear Hin. revert q Hq. now apply Forall_forall.
Qed.

End PredictImageFacts.

Lemma predict_image_result_range_witness :
  exists r,
    fst (Demo.predict_image Demo.tensor None) = Return r /\
    In (class_index r) [-1; 0; 1; 2; 3; 4; 5; 6; 7; 8]%Z /\
    (class_index r = (-1)%Z <-> prediction r = "unknown"%string) /\
    (0 <= confidence r)%Q /\ (confidence r <= 100)%Q.
Proof.
  destruct (@predict_image_result_range (Return Demo.classifier) Demo.compile
              false Demo.missing (Return Demo.classifier) Demo.no_key
              Demo.post_unreachable Demo.json_loads_str Demo.tensor None)
    as (r & Hr & Hin & Hiff & Hconf).
  exists r. split; [exact Hr|]. split; [exact Hin|]. split; [exact Hiff|].
  apply Hconf.
  intros model predictions row p Hm Hp Hrow Hp_in.
  simpl in Hm; injection Hm as <-.
  injection Hp as <-.
  destruct Hrow as [<-|[]].
  simpl in Hp_in.
  repeat (destruct Hp_in as [<-|Hp_in]; [split; discriminate|]).
  destruct Hp_in.
Defined.

(** With a model that puts out scores the confidence leaves [0, 100]. *)
Lemma predict_image_confidence_out_of_range :
  ~ forall load_h5 compile dir_exists load_saved create_dummy
           config post loads image_array cache,
      exists r,
        fst (Model.predict_image load_h5 compile dir_exists load_saved
                                 create_dummy config post loads
                                 image_array cache) = Return r /\
        (0 <= confidence r)%Q /\ (confidence r <= 100)%Q /\
        In (class_index r) [-1; 0; 1; 2; 3; 4; 5; 6; 7; 8]%Z /\
        (class_index r = (-1)%Z <-> prediction r = "unknown"%string).
Proof.
  intros H.
  destruct (H (Return Demo.score_classifier) Demo.compile false Demo.missing
              (Return Demo.classifier) Demo.no_key Demo.post_unreachable
              Demo.json_loads_str Demo.tensor None)
    as (r & Hr & _ & Hle & _).
  simpl in Hr; injection Hr as <-.
  simpl in Hle. apply Hle; reflexivity.
Qed.

Lemma predict_image_confidence_of_max_witness :
  exists r p,
    fst (Demo.predict_image Demo.tensor None) = Return r /\
    prediction r = "melanoma"%string /\
    assoc (prediction r) (all_probabilities r) = Some p /\
    confidence r = py_round2 (p * 100) /\
    length (all_probabilities r) = 9%nat /\
    forall label q, In (label, q) (all_probabilities r) -> (q <= p)%Q.
Proof.
  eexists.
  destruct (@predict_image_confidence_of_max (Return Demo.classifier)
              Demo.compile false Demo.missing (Return Demo.classifier)
              Demo.no_key Demo.post_unreachable Demo.json_loads_str
              Demo.tensor None _ eq_refl eq_refl)
    as (p & Hp & Hc & Hn & Hmax).
  exists p. split; [reflexivity|]. split; [reflexivity|].
  split; [exact Hp|]. split; [exact Hc|]. split; [exact Hn | exact Hmax].
Defined.

(** ** Placeholder mode and real-model mode *)

Section LoaderFacts.

Variable current_app_config : outcome Config.
Variable requests_post : Request -> outcome Response.
Variable json_loads_str : string -> outcome json.

(** The result is a function of the loaded model's output on the tensor. *)
Lemma predict_image_depends_on_output_only
    load_h5 compile dir_exists load_saved create_dummy
    load_h5' compile' dir_exists' load_saved' create_dummy'
    image_array cache cache' m m' :
  fst (load_model load_h5 compile dir_exists load_saved create_dummy cache)
    = Return m ->
  fst (load_model load_h5' compile' dir_exists' load_saved' create_dummy' cache')
    = Return m' ->
  m image_array = m' image_array ->
  fst (predict_image load_h5 compile dir_exists load_saved create_dummy
                     current_app_config requests_post json_loads_str
                     image_array cache)
  = fst (predict_image load_h5' compile' dir_exists' load_saved' create_dummy'
                       current_app_config requests_post json_loads_str
                       image_array cache').
Proof.
  unfold predict_image; intros H1 H2 Hout.
  destruct (load_model load_h5 _ _ _ _ cache) as [model c1].
  destruct (load_model load_h5' _ _ _ _ cache') as [model' c2].
  simpl in *; subst model model'.
  now rewrite (predict_with_ext _ _ _ _ _ _ Hout).
Qed.

(** A run of [load_model] that falls back hands out what
    [create_dummy_model()] gives. *)
Lemma falls_back_to_dummy_loads_dummy
    load_h5 compile dir_exists load_saved create_dummy cache :
  falls_back_to_dummy load_h5 compile dir_exists load_saved cache = true ->
  fst (load_model load_h5 compile dir_exists load_saved create_dummy cache)
    = create_dummy.
Proof.
  unfold falls_back_to_dummy, load_model, load_fallback, dummy_after_failure.
  destruct cache as [m|]; [discriminate|].
  destruct load_h5 as [m|e]; [destruct (compile m)|];
    destruct dir_exists; try destruct load_saved;
    simpl; try discriminate; intros _;
    destruct create_dummy; reflexivity.
Qed.

(** C6, as amended.  A run in placeholder mode and a run in real-model
    mode whose models give the same output on the tensor return the same
    result: nothing in the result records the mode. *)
Theorem predict_image_same_result_in_both_modes
    load_h5 compile dir_exists load_saved create_dummy
    load_h5' compile' dir_exists' load_saved' create_dummy'
    image_array cache cache' m m' :
  falls_back_to_dummy load_h5 compile dir_exists load_saved cache = true ->
  falls_back_to_dummy load_h5' compile' dir_exists' load_saved' cache' = false ->
  fst (load_model load_h5 compile dir_exists load_saved create_dummy cache)
    = Return m ->
  fst (load_model load_h5' compile' dir_exists' load_saved' create_dummy' cache')
    = Return m' ->
  m image_array = m' image_array ->
  fst (predict_image load_h5 compile dir_exists load_saved create_dummy
                     current_app_config requests_post json_loads_str
                     image_array cache)
  = fst (predict_image load_h5' compile' dir_exists' load_saved' create_dummy'
                       current_app_config requests_post json_loads_str
                       image_array cache').
Proof.
  intros _ _. apply predict_image_depends_on_output_only.
Qed.

End LoaderFacts.

Lemma predict_image_same_result_in_both_modes_witness :
  fst (Demo.predict_image_placeholder Demo.tensor None)
  = fst (Demo.predict_image Demo.tensor None).
Proof.
  apply (@predict_image_same_result_in_both_modes
           Demo.no_key Demo.post_unreachable Demo.json_loads_str
           Demo.missing Demo.compile false Demo.missing (Return Demo.classifier)
           (Return Demo.classifier) Demo.compile false Demo.missing
           (Return Demo.classifier)
           Demo.tensor None None Demo.classifier Demo.classifier);
    reflexivity.
Defined.

(** No function of the result tells the two modes apart: a placeholder run
    and a real-model run can return the very same result. *)
Lemma predict_image_result_has_no_mode_flag :
  ~ exists flag : PredictionResult -> bool,
      forall load_h5 compile dir_exists load_saved create_dummy
             config post loads image_array cache r,
        fst (predict_image load_h5 compile dir_exists load_saved create_dummy
                           config post loads image_array cache) = Return r ->
        flag r = falls_back_to_dummy load_h5 compile dir_exists load_saved cache.
Proof.
  intros [flag H].
  pose proof (H Demo.missing Demo.compile false Demo.missing
                (Return Demo.classifier) Demo.no_key Demo.post_unreachable
                Demo.json_loads_str Demo.tensor None _ eq_refl) as Hdummy.
  pose proof (H (Return Demo.classifier) Demo.compile false Demo.missing
                (Return Demo.classifier) Demo.no_key Demo.post_unreachable
                Demo.json_loads_str Demo.tensor None _ eq_refl) as Hreal.
  simpl in Hdummy, Hreal. congruence.
Qed.

(** ** The upload view *)

Section UploadFacts.

Variable allowed_file : string -> bool.
Variable secure_filename : string -> string.
Variable splitext_ext : string -> string.
Variable uuid4 : string.
Variable now : string.
Variable upload_folder_writable : bool.
Variable decode : string -> outcome PILImage.
Variable resample : PILImage -> nat * nat -> outcome (list Z).
Variable load_h5 : outcome KerasModel.
Variable compile : KerasModel -> outcome unit.
Variable saved_model_dir_exists : bool.
Variable load_saved_model : outcome KerasModel.
Variable create_dummy_model : outcome KerasModel.
Variable current_app_config : outcome Config.
Variable requests_post : Request -> outcome Response.
Variable json_loads_str : string -> outcome json.

Local Abbreviation upload :=
  (Diagnosis.upload allowed_file secure_filename splitext_ext uuid4 now
          upload_folder_writable decode resample load_h5 compile
          saved_model_dir_exists load_saved_model create_dummy_model
          current_app_config requests_post json_loads_str).

(** C9.  When decoding the saved upload, or a later step of
    [preprocess_image], fails with [e], [preprocess_image] raises [e] to
    the view, and the view answers with the processing-error flash and a
    redirect to the upload page; no diagnosis is stored in the session
    and the model is not touched. *)
Theorem upload_preprocessing_failure request file config st e :
  request_file request = Some file ->
  filename file <> EmptyString ->
  allowed_file (filename file) = true ->
  current_app_config = Return config ->
  upload_folder_writable = true ->
  let original_filename := secure_filename (filename file) in
  let file_path :=
    (UPLOAD_FOLDER config ++ "/" ++ uuid4 ++ splitext_ext original_filename)%string in
  let saved := (file_path, stream file) :: disk st in
  preprocess_image_body (Image_open decode saved) resample file_path
                        default_target_size = Raise e ->
  preprocess_image (Image_open decode saved) resample file_path
                   default_target_size = Raise e /\
  upload request st =
    Return (redirect "diagnosis.index",
            mk_state (session_diagnosis_result st)
                     (flashed st ++
                      [("An error occurred during processing. Please try again.",
                        "error")]%string)
                     saved
                     (model_cache st)).
Proof.
  intros Hfile Hname Hallowed Hconfig Hwrite original_filename file_path saved Hfail.
  apply String.eqb_neq in Hname.
  pose proof (preprocess_image_propagates _ _ _ _ Hfail) as Hraise.
  split; [exact Hraise|].
  unfold Diagnosis.upload. rewrite Hfile, Hname, Hallowed, Hconfig.
  unfold bind, file_save; rewrite Hwrite.
  unfold diagnose, disk at 1.
  fold original_filename; fold file_path; fold saved.
  rewrite Hraise. reflexivity.
Qed.

(** A file whose bytes do not decode is such a failure. *)
Lemma undecodable_upload_fails path bytes files target_size e :
  decode bytes = Raise e ->
  preprocess_image_body (Image_open decode ((path, bytes) :: files)) resample
                        path target_size = Raise e.
Proof.
  intros Hd. unfold preprocess_image_body, Image_open; simpl.
  rewrite String.eqb_refl, Hd; reflexivity.
Qed.

End UploadFacts.

Lemma upload_preprocessing_failure_witness :
  Demo.upload Demo.empty_upload Demo.empty_state =
    Return (redirect "diagnosis.index",
            mk_state None
                     [("An error occurred during processing. Please try again.",
                       "error")]%string
                     [("uploads/0f8fad5b.png", EmptyString)]%string
                     None).
Proof.
  apply (@upload_preprocessing_failure
           Demo.allowed_file (fun name => name)
           (fun name => substring (String.length name - 4) 4 name)
           "0f8fad5b" "2024-01-01 00:00:00" true Demo.decode Demo.nearest
           (Return Demo.classifier) Demo.compile false Demo.missing
           (Return Demo.classifier) Demo.no_key Demo.post_unreachable
           Demo.json_loads_str
           Demo.empty_upload (mk_file "lesion.png" EmptyString)
           (mk_config EmptyString "llama2-70b-4096" "uploads") Demo.empty_state
           (mk_exn OSError "cannot identify image file"));
    try reflexivity.
  discriminate.
Defined.

(** * Further properties of the code *)

(** ** preprocess_image: channels and samples *)

Lemma flat_map_const_length {A B} (f : A -> list B) (l : list A) k :
  (forall x, In x l -> length (f x) = k) ->
  length (flat_map f l) = (length l * k)%nat.
Proof.
  induction l as [|x l IH]; intros H; simpl; [reflexivity|].
  rewrite length_app, (H x) by (left; reflexivity).
  rewrite IH by (intros y Hy; apply H; right; exact Hy). reflexivity.
Qed.

(** Taking the first [k] of every [c] elements of [n * c] elements leaves
    [n * k] of them. *)
Lemma slice_last_length {A} c k n (d : list A) :
  (0 < c)%nat -> (k <= c)%nat -> length d = (n * c)%nat ->
  length (slice_last c k d) = (n * k)%nat.
Proof.
  intros Hc Hk Hd; unfold slice_last.
  rewrite Hd, Nat.div_mul by lia.
  rewrite (@flat_map_const_length _ _ _ _ k); [now rewrite length_seq|].
  intros i Hi. apply in_seq in Hi.
  rewrite length_firstn, length_skipn, Hd. nia.
Qed.

Lemma slice_last_shift {A} c k (x rest : list A) n :
  length x = c ->
  flat_map (fun i => firstn k (skipn (i * c) (x ++ rest))) (seq 1 n)
  = flat_map (fun i => firstn k (skipn (i * c) rest)) (seq 0 n).
Proof.
  intros Hx. rewrite <- seq_shift, flat_map_concat_map, map_map,
    <- flat_map_concat_map.
  apply flat_map_ext; intros i. f_equal.
  replace (S i * c)%nat with (length x + i * c)%nat by (simpl; lia).
  rewrite skipn_app, skipn_all2 by lia.
  replace (length x + i * c - length x)%nat with (i * c)%nat by lia.
  reflexivity.
Qed.

(** On a list made of chunks of [c] elements, [slice_last c k] keeps the
    first [k] of every chunk. *)
Lemma slice_last_chunks {A} c k (chunks : list (list A)) :
  (0 < c)%nat -> (k <= c)%nat ->
  Forall (fun x => length x = c) chunks ->
  slice_last c k (concat chunks) = flat_map (firstn k) chunks.
Proof.
  intros Hc Hk Hall; unfold slice_last.
  assert (Hlen : forall l : list (list A),
             Forall (fun x => length x = c) l ->
             length (concat l) = (length l * c)%nat).
  { induction 1 as [|x l Hx _ IH]; simpl; [reflexivity|].
    rewrite length_app, IH, Hx; reflexivity. }
  induction Hall as [|x l Hx Hl IH]; simpl.
  - rewrite Nat.Div0.div_0_l; reflexivity.
  - rewrite length_app, (Hlen l Hl), Hx.
    replace (c + length l * c)%nat with (S (length l) * c)%nat by (simpl; lia).
    rewrite Nat.div_mul by lia.
    rewrite <- cons_seq; simpl.
    rewrite firstn_app, Hx.
    replace (k - c)%nat with 0%nat by lia.
    rewrite firstn_O, app_nil_r. f_equal.
    rewrite slice_last_shift by exact Hx.
    rewrite <- IH. now rewrite (Hlen l Hl), Nat.div_mul by lia.
Qed.

Section PreprocessImageSamples.

Variable Image_open : string -> outcome PILImage.
Variable resample : PILImage -> nat * nat -> outcome (list Z).

Local Abbreviation preprocess_image :=
  (Preprocessing.preprocess_image Image_open resample).

(** X2.  An image with a band count other than 1 or 4 keeps its bands: no
    conversion to three channels takes place (two bands stay two). *)
Theorem preprocess_image_keeps_other_bands path target_size img d :
  Image_open path = Return img ->
  (2 <= im_bands img)%nat -> im_bands img <> 4%nat ->
  resample img target_size = Return d ->
  exists arr,
    preprocess_image path target_size = Return arr /\
    shape arr = [1%nat; snd target_size; fst target_size; im_bands img] /\
    data arr = map (fun z => inject_Z z / 255)%Q d.
Proof.
  intros Hopen Hb2 Hb4 Hres.
  unfold Preprocessing.preprocess_image, preprocess_image_body, resize.
  rewrite Hopen; simpl; rewrite Hres; simpl.
  unfold to_three_channels, np_array; simpl.
  destruct target_size as [w h]; simpl.
  destruct (im_bands img =? 1)%nat eqn:E1; [apply Nat.eqb_eq in E1; lia|].
  simpl. destruct (im_bands img =? 4)%nat eqn:E4; [apply Nat.eqb_eq in E4; lia|].
  simpl. eexists; split; [reflexivity|]; split; reflexivity.
Qed.

(** X3.  A four-band image loses its fourth band: the result holds, pixel by
    pixel and in order, the first three samples divided by 255. *)
Theorem preprocess_image_drops_alpha path target_size img
    (pixels : list (Z * Z * Z * Z)) :
  Image_open path = Return img ->
  im_bands img = 4%nat ->
  resample img target_size =
    Return (flat_map (fun '(r, g, b, a) => [r; g; b; a]) pixels) ->
  exists arr,
    preprocess_image path target_size = Return arr /\
    data arr =
      flat_map (fun '(r, g, b, _) =>
                  [inject_Z r / 255; inject_Z g / 255; inject_Z b / 255]%Q)
               pixels.
Proof.
  intros Hopen Hb Hres.
  unfold Preprocessing.preprocess_image, preprocess_image_body, resize.
  rewrite Hopen; simpl; rewrite Hres; simpl.
  unfold to_three_channels, np_array; simpl.
  destruct target_size as [w h]; simpl. rewrite Hb; simpl.
  eexists; split; [reflexivity|]. simpl.
  rewrite flat_map_concat_map, slice_last_chunks; try lia.
  - clear. induction pixels as [|[[[r g] b] a] l IH]; [reflexivity|].
    cbn [map flat_map firstn app]. do 3 f_equal. exact IH.
  - apply Forall_map, Forall_forall. intros [[[r g] b] a] _; reflexivity.
Qed.

(** A single-band image is replicated into three equal channels: every
    sample appears three times in a row, divided by 255. *)
Theorem preprocess_image_replicates_grey path target_size img d :
  Image_open path = Return img ->
  im_bands img = 1%nat ->
  resample img target_size = Return d ->
  exists arr,
    preprocess_image path target_size = Return arr /\
    data arr =
      flat_map (fun z => let v := (inject_Z z / 255)%Q in [v; v; v]) d.
Proof.
  intros Hopen Hb Hres.
  unfold Preprocessing.preprocess_image, preprocess_image_body, resize.
  rewrite Hopen; simpl; rewrite Hres; simpl.
  unfold to_three_channels, np_array; simpl.
  destruct target_size as [w h]; simpl. rewrite Hb; simpl.
  eexists; split; [reflexivity|]. simpl.
  clear. induction d as [|z l IH]; simpl; [reflexivity|]. now rewrite IH.
Qed.

(** X4.  When the resized image has one sample per pixel and band, the returned
    array is well formed: its shape announces exactly the elements it has. *)
Theorem preprocess_image_well_formed path target_size img d arr :
  Image_open path = Return img ->
  (0 < im_bands img)%nat ->
  resample img target_size = Return d ->
  length d = (snd target_size * fst target_size * im_bands img)%nat ->
  preprocess_image path target_size = Return arr ->
  well_formed arr.
Proof.
  intros Hopen Hb Hres Hlen.
  unfold Preprocessing.preprocess_image, preprocess_image_body, resize.
  rewrite Hopen; simpl; rewrite Hres; simpl.
  unfold to_three_channels, np_array; simpl.
  destruct target_size as [w h]; simpl in *.
  destruct (im_bands img =? 1)%nat eqn:E1; simpl.
  - apply Nat.eqb_eq in E1. intros [= <-].
    unfold well_formed; simpl. rewrite length_map.
    rewrite (@flat_map_const_length _ _ _ _ 3) by reflexivity. nia.
  - destruct (im_bands img =? 4)%nat eqn:E4; simpl.
    + apply Nat.eqb_eq in E4. intros [= <-].
      unfold well_formed; simpl. rewrite length_map.
      rewrite E4 in *; simpl.
      rewrite (@slice_last_length _ 4 3 (h * w)) by lia. lia.
    + intros [= <-]. unfold well_formed; simpl. rewrite length_map. nia.
Qed.

End PreprocessImageSamples.

Lemma preprocess_image_shape_witness :
  exists arr,
    Preprocessing.preprocess_image Samples.open_sample Samples.keep "rgba.png"
                                   (2%nat, 1%nat) = Return arr /\
    shape arr = [1; 1; 2; 3]%nat /\
    Forall unit_interval (data arr).
Proof.
  apply (@preprocess_image_shape Samples.open_sample Samples.keep "rgba.png"
           (2%nat, 1%nat) Samples.rgba_image
           [255; 0; 0; 128; 0; 0; 255; 255]%Z);
    [reflexivity | simpl; tauto | reflexivity |].
  repeat constructor; unfold eight_bit; lia.
Defined.

Lemma preprocess_image_keeps_other_bands_witness :
  exists arr,
    Preprocessing.preprocess_image Samples.open_sample Samples.keep "la.png"
                                   (1%nat, 2%nat) = Return arr /\
    shape arr = [1; 2; 1; 2]%nat /\
    data arr = map (fun z => inject_Z z / 255)%Q [10; 255; 20; 255]%Z.
Proof.
  apply (@preprocess_image_keeps_other_bands Samples.open_sample Samples.keep
           "la.png" (1%nat, 2%nat) Samples.la_image);
    [reflexivity | simpl; lia | discriminate | reflexivity].
Defined.

Lemma preprocess_image_drops_alpha_witness :
  exists arr,
    Preprocessing.preprocess_image Samples.open_sample Samples.keep "rgba.png"
                                   (2%nat, 1%nat) = Return arr /\
    data arr =
      [inject_Z 255 / 255; inject_Z 0 / 255; inject_Z 0 / 255;
       inject_Z 0 / 255; inject_Z 0 / 255; inject_Z 255 / 255]%Q.
Proof.
  apply (@preprocess_image_drops_alpha Samples.open_sample Samples.keep
           "rgba.png" (2%nat, 1%nat) Samples.rgba_image Samples.rgba_pixels);
    reflexivity.
Defined.

Lemma preprocess_image_replicates_grey_witness :
  exists arr,
    Preprocessing.preprocess_image Samples.open_sample Samples.keep "grey.png"
                                   (2%nat, 1%nat) = Return arr /\
    data arr =
      [inject_Z 10 / 255; inject_Z 10 / 255; inject_Z 10 / 255;
       inject_Z 20 / 255; inject_Z 20 / 255; inject_Z 20 / 255]%Q.
Proof.
  apply (@preprocess_image_replicates_grey Samples.open_sample Samples.keep
           "grey.png" (2%nat, 1%nat) Samples.grey_image [10; 20]%Z);
    reflexivity.
Defined.

Lemma preprocess_image_well_formed_witness :
  exists arr,
    Preprocessing.preprocess_image Samples.open_sample Samples.keep "rgba.png"
                                   (2%nat, 1%nat) = Return arr /\
    well_formed arr.
Proof.
  eexists; split; [reflexivity|].
  apply (@preprocess_image_well_formed Samples.open_sample Samples.keep
           "rgba.png" (2%nat, 1%nat) Samples.rgba_image
           [255; 0; 0; 128; 0; 0; 255; 255]%Z);
    try reflexivity.
  simpl; lia.
Defined.

(** ** extract_features: what is measured *)

Lemma py_max_by_spec {A} (key : A -> Q) rest :
  forall best,
    In (py_max_by key best rest) (best :: rest) /\
    Forall (fun c => key c <= key (py_max_by key best rest))%Q (best :: rest).
Proof.
  induction rest as [|c rest IH]; intros best; simpl.
  - split; [now left | constructor; [apply Qle_refl | constructor]].
  - destruct (Qpositive (key c - key best)) eqn:E.
    + destruct (IH c) as [Hin Hall]. split; [now right|].
      inversion Hall as [|? ? Hc Hrest]; subst.
      constructor; [|constructor; assumption].
      unfold Qpositive in E.
      apply Qle_trans with (key c); [|exact Hc].
      apply Qlt_le_weak, Qnot_le_lt; intros Hle.
      assert (Hb : Qle_bool (key c - key best) 0 = true)
        by (apply Qle_bool_iff; lra).
      rewrite Hb in E; discriminate.
    + destruct (IH best) as [Hin Hall]. split.
      * destruct Hin as [Hin|Hin]; [now left | right; now right].
      * inversion Hall as [|? ? Hb Hrest]; subst.
        constructor; [exact Hb|]. constructor; [|exact Hrest].
        apply Qle_trans with (key best); [|exact Hb].
        unfold Qpositive in E.
        destruct (Qle_bool (key c - key best) 0) eqn:Hle; [|discriminate].
        apply Qle_bool_iff in Hle; lra.
Qed.

Lemma Zsum_uint8_square_bounds xs :
  (0 <= Zsum (uint8_square xs) <= 255 * Z.of_nat (length xs))%Z.
Proof.
  induction xs as [|x xs IH]; simpl length; [simpl; lia|].
  change (Zsum (uint8_square (x :: xs)))
    with ((x * x) mod 256 + Zsum (uint8_square xs))%Z.
  pose proof (Z.mod_pos_bound (x * x) 256 ltac:(lia)). lia.
Qed.

Section ExtractFeaturesMeasures.

Variable cvtColor : ndarray Z -> ColorConversionCode -> outcome (ndarray Z).
Variable threshold : ndarray Z -> outcome (Q * ndarray Z).
Variable findContours : ndarray Z -> outcome (list contour).
Variable contourArea : contour -> Q.
Variable arcLength : contour -> Q.
Variable boundingRect : contour -> Z * Z * Z * Z.
Variable convexHull : contour -> contour.
Variable np_sqrt : Q -> Q.

Local Abbreviation extract_features :=
  (Preprocessing.extract_features cvtColor threshold findContours contourArea
                                  arcLength boundingRect convexHull np_sqrt).
Local Abbreviation load_bgr := (Preprocessing.load_bgr cvtColor).
Local Abbreviation measure :=
  (Preprocessing.measure cvtColor threshold findContours np_sqrt).
Local Abbreviation shape_features :=
  (Preprocessing.shape_features contourArea arcLength boundingRect convexHull).

(** X5.  The shape values describe one of the contours found, and no contour
    found has a larger area than the ['area'] entry; ['perimeter'] is the
    arc length of that same contour. *)
Theorem extract_features_measures_largest_contour
    img_array img_bgr color texture contours :
  load_bgr img_array = Return img_bgr ->
  measure img_bgr = Return (color, texture, contours) ->
  contours <> [] ->
  exists fs largest,
    extract_features img_array = Return fs /\
    In largest contours /\
    assoc "area" (fs_shape fs) = Some (contourArea largest) /\
    assoc "perimeter" (fs_shape fs) = Some (arcLength largest) /\
    forall c, In c contours -> (contourArea c <= contourArea largest)%Q.
Proof.
  intros Hload Hm Hne.
  destruct contours as [|c0 rest]; [contradiction|].
  destruct (py_max_by_spec contourArea rest c0) as [Hin Hall].
  set (k := py_max_by contourArea c0 rest) in *.
  destruct (circularity_of_spec (contourArea k) (arcLength k)) as (ci & Hci & _).
  destruct (boundingRect k) as [[[x y] w] h] eqn:Hrect.
  destruct (aspect_ratio_of_spec w h) as (r & Hr & _).
  destruct (solidity_of_spec (contourArea k) (contourArea (convexHull k)))
    as (s & Hs & _).
  exists (mk_features color texture
            [("area", contourArea k); ("perimeter", arcLength k);
             ("circularity", ci); ("aspect_ratio", r);
             ("solidity", s)]%string None), k.
  split.
  - unfold Preprocessing.extract_features, Preprocessing.extract_features_body.
    rewrite Hload; simpl; rewrite Hm; simpl.
    fold k. rewrite Hci; simpl. rewrite Hrect, Hr; simpl. rewrite Hs.
    reflexivity.
  - split; [exact Hin|]. split; [reflexivity|]. split; [reflexivity|].
    now apply Forall_forall.
Qed.

(** X6.  The energy entry never exceeds 255, whatever the image: every square
    is reduced modulo 256 before the sum is divided by the pixel count. *)
Theorem extract_features_energy_bounded
    img_array img_bgr gray rows cols color texture contours :
  load_bgr img_array = Return img_bgr ->
  cvtColor img_bgr COLOR_BGR2GRAY = Return gray ->
  shape gray = [rows; cols] ->
  length (data gray) = (rows * cols)%nat ->
  (0 < rows * cols)%nat ->
  measure img_bgr = Return (color, texture, contours) ->
  exists fs energy,
    extract_features img_array = Return fs /\
    assoc "energy" (fs_texture fs) = Some energy /\
    (0 <= energy)%Q /\ (energy <= 255)%Q.
Proof.
  intros Hload Hgray Hshape Hlen Hpos Hm.
  destruct (shape_features_returns contourArea arcLength boundingRect
              convexHull contours) as (d & Hd).
  exists (mk_features color texture d None).
  unfold Preprocessing.extract_features, Preprocessing.extract_features_body.
  rewrite Hload; simpl; rewrite Hm; simpl. rewrite Hd; simpl.
  unfold Preprocessing.measure in Hm. rewrite Hgray in Hm; simpl in Hm.
  apply bind_Return_inv in Hm as (hsv & _ & Hm).
  apply bind_Return_inv in Hm as (col & _ & Hm).
  unfold texture_features, texture_energy, shape_at in Hm.
  rewrite Hshape in Hm; simpl in Hm.
  apply bind_Return_inv in Hm as ([t th] & _ & Hm).
  apply bind_Return_inv in Hm as (cs & _ & Hm).
  injection Hm as _ <- _.
  eexists; split; [reflexivity|]; split; [reflexivity|].
  pose proof (Zsum_uint8_square_bounds (data gray)) as [H0 H1].
  rewrite Hlen in H1.
  assert (Hn : (0 < inject_Z (Z.of_nat (rows * cols)))%Q)
    by (rewrite <- (Zlt_Qlt 0); lia).
  split.
  - apply Qle_shift_div_l; [exact Hn|].
    rewrite Qmult_0_l. rewrite <- (Zle_Qle 0). exact H0.
  - apply Qle_shift_div_r; [exact Hn|].
    change 255%Q with (inject_Z 255).
    rewrite <- inject_Z_mult, <- Zle_Qle. exact H1.
Qed.

(** A batch (four axes) is analysed through its first element only: two
    uint8 batches that agree on their first element give the same
    features, however many elements they hold and whatever the others are. *)
Theorem extract_features_uses_first_of_batch n n' h w c d d' :
  firstn (prod_shape [h; w; c]) d = firstn (prod_shape [h; w; c]) d' ->
  extract_features (U8 (mk_ndarray [S n; h; w; c] d))
  = extract_features (U8 (mk_ndarray [S n'; h; w; c] d')) /\
  extract_features (U8 (mk_ndarray [S n; h; w; c] d))
  = extract_features
      (U8 (mk_ndarray [h; w; c] (firstn (prod_shape [h; w; c]) d))).
Proof.
  intros Hd. split; [|reflexivity].
  unfold Preprocessing.extract_features, Preprocessing.extract_features_body,
    Preprocessing.load_bgr, np_first.
  cbn [shape data length Nat.eqb]. now rewrite Hd.
Qed.

(** X7.  An array with fewer than three axes (a grey image without a channel
    axis) is not analysed: the error feature set comes back. *)
Theorem extract_features_rejects_flat_arrays a :
  (length (shape a) < 3)%nat ->
  extract_features (U8 a) =
    Return (mk_features [] [] [] (Some "tuple index out of range"%string)).
Proof.
  intros Hlen.
  unfold Preprocessing.extract_features, Preprocessing.extract_features_body,
    Preprocessing.load_bgr, shape_at.
  destruct a as [[|n0 [|n1 [|n2 s]]] d]; simpl in *; try reflexivity; lia.
Qed.

End ExtractFeaturesMeasures.

Lemma extract_features_measures_largest_contour_witness :
  exists fs largest,
    Demo.extract_features Demo.dark_square = Return fs /\
    In largest [[(0, 0); (0, 1); (1, 1); (1, 0)]%Z] /\
    assoc "area" (fs_shape fs) = Some (Demo.contourArea largest) /\
    assoc "perimeter" (fs_shape fs) = Some (Demo.arcLength largest) /\
    forall c, In c [[(0, 0); (0, 1); (1, 1); (1, 0)]%Z] ->
              (Demo.contourArea c <= Demo.contourArea largest)%Q.
Proof.
  eapply (@extract_features_measures_largest_contour Demo.cvtColor
            Demo.threshold Demo.findContours Demo.contourArea Demo.arcLength
            Demo.boundingRect Demo.convexHull Demo.np_sqrt Demo.dark_square);
    [reflexivity | reflexivity | discriminate].
Defined.

Lemma extract_features_energy_bounded_witness :
  exists fs energy,
    Demo.extract_features (Demo.grey_image 255) = Return fs /\
    assoc "energy" (fs_texture fs) = Some energy /\
    (0 <= energy)%Q /\ (energy <= 255)%Q.
Proof.
  eapply (@extract_features_energy_bounded Demo.cvtColor Demo.threshold
            Demo.findContours Demo.contourArea Demo.arcLength Demo.boundingRect
            Demo.convexHull Demo.np_sqrt (Demo.grey_image 255)
            _ _ 1%nat 2%nat);
    [reflexivity | reflexivity | reflexivity | reflexivity | simpl; lia
     | reflexivity].
Defined.

Lemma extract_features_uses_first_of_batch_witness :
  Demo.extract_features
    (U8 (mk_ndarray [2; 1; 1; 3]%nat [16; 16; 16; 200; 100; 0]%Z))
  = Demo.extract_features
      (U8 (mk_ndarray [1; 1; 1; 3]%nat [16; 16; 16]%Z)) /\
  Demo.extract_features
    (U8 (mk_ndarray [2; 1; 1; 3]%nat [16; 16; 16; 200; 100; 0]%Z))
  = Demo.extract_features (Demo.grey_pixel 16).
Proof.
  apply (@extract_features_uses_first_of_batch Demo.cvtColor Demo.threshold
           Demo.findContours Demo.contourArea Demo.arcLength Demo.boundingRect
           Demo.convexHull Demo.np_sqrt 1 0 1 1 3
           [16; 16; 16; 200; 100; 0]%Z [16; 16; 16]%Z).
  reflexivity.
Defined.

Lemma extract_features_rejects_flat_arrays_witness :
  Demo.extract_features (U8 (mk_ndarray [2; 2]%nat [0; 0; 0; 0]%Z)) =
    Return (mk_features [] [] [] (Some "tuple index out of range"%string)).
Proof.
  apply (@extract_features_rejects_flat_arrays Demo.cvtColor Demo.threshold
           Demo.findContours Demo.contourArea Demo.arcLength Demo.boundingRect
           Demo.convexHull Demo.np_sqrt).
  simpl; lia.
Defined.

(** ** get_groq_analysis: every way out *)

Section GetGroqAnalysisOutcomes.

Variable current_app_config : outcome Config.
Variable requests_post : Request -> outcome Response.
Variable json_loads_str : string -> outcome json.

Local Abbreviation get_groq_analysis :=
  (Groq.get_groq_analysis current_app_config requests_post json_loads_str).

(** X8.  Without an API key the function returns [None] and the outcome of the
    HTTP request plays no part: whatever [requests.post] and [json.loads]
    would do, the result is the same. *)
Theorem get_groq_analysis_without_key predicted_class confidence config
    (post : Request -> outcome Response) (loads : string -> outcome json) :
  current_app_config = Return config ->
  GROQ_API_KEY config = EmptyString ->
  Groq.get_groq_analysis current_app_config post loads
                         predicted_class confidence = Return JNull.
Proof.
  intros Hc Hk.
  unfold Groq.get_groq_analysis, get_groq_analysis_body.
  rewrite Hc; simpl; rewrite Hk; reflexivity.
Qed.

(** X9.  A reply with a status other than 200 gives the error marker that
    names the status, whatever the body of the reply holds. *)
Theorem get_groq_analysis_status_marker
    predicted_class confidence config response :
  current_app_config = Return config ->
  GROQ_API_KEY config <> EmptyString ->
  requests_post (chat_request (GROQ_API_KEY config) (GROQ_MODEL config)
                              predicted_class confidence) = Return response ->
  status_code response <> 200%Z ->
  get_groq_analysis predicted_class confidence =
    Return (error_marker ("API request failed with status code "
                          ++ str_of_status (status_code response))).
Proof.
  intros Hc Hk Hp Hs. apply String.eqb_neq in Hk. apply Z.eqb_neq in Hs.
  unfold Groq.get_groq_analysis, get_groq_analysis_body.
  rewrite Hc; simpl; rewrite Hk, Hp; simpl; rewrite Hs; reflexivity.
Qed.

(** A 200 reply whose content is valid JSON gives the decoded content. *)
Theorem get_groq_analysis_decodes_content
    predicted_class confidence config response response_data s analysis :
  current_app_config = Return config ->
  GROQ_API_KEY config <> EmptyString ->
  requests_post (chat_request (GROQ_API_KEY config) (GROQ_MODEL config)
                              predicted_class confidence) = Return response ->
  status_code response = 200%Z ->
  resp_json response = Return response_data ->
  message_content response_data = Return (JStr s) ->
  json_loads_str s = Return analysis ->
  get_groq_analysis predicted_class confidence = Return analysis.
Proof.
  intros Hc Hk Hp Hs Hj Hm Hl. apply String.eqb_neq in Hk.
  unfold Groq.get_groq_analysis, get_groq_analysis_body.
  rewrite Hc; simpl; rewrite Hk, Hp; simpl; rewrite Hs; simpl.
  rewrite Hj; simpl; rewrite Hm; simpl; rewrite Hl; reflexivity.
Qed.

(** X10.  A 200 reply whose content is JSON wrapped in prose is recovered: when
    the content does not decode but the text from its first [{] to its last
    [}] does, that decoded value is returned; when that text does not decode
    either, the parse-failure marker is. *)
Theorem get_groq_analysis_recovers_wrapped_json
    predicted_class confidence config response response_data s e :
  current_app_config = Return config ->
  GROQ_API_KEY config <> EmptyString ->
  requests_post (chat_request (GROQ_API_KEY config) (GROQ_MODEL config)
                              predicted_class confidence) = Return response ->
  status_code response = 200%Z ->
  resp_json response = Return response_data ->
  message_content response_data = Return (JStr s) ->
  json_loads_str s = Raise e ->
  exn_type e = JSONDecodeError ->
  (0 <= str_find "{" s < str_rfind "}" s + 1)%Z ->
  get_groq_analysis predicted_class confidence =
    match json_loads_str
            (str_slice s (str_find "{" s) (str_rfind "}" s + 1)) with
    | Return analysis => Return analysis
    | Raise _ => Return (error_marker "Failed to parse JSON from Groq response")
    end.
Proof.
  intros Hc Hk Hp Hs Hj Hm Hl He Hf. apply String.eqb_neq in Hk.
  unfold Groq.get_groq_analysis, get_groq_analysis_body.
  rewrite Hc; simpl; rewrite Hk, Hp; simpl; rewrite Hs; simpl.
  rewrite Hj; simpl; rewrite Hm; simpl; rewrite Hl.
  unfold is_JSONDecodeError; rewrite He.
  rewrite extract_braces_found by exact Hf.
  destruct (json_loads_str (str_slice _ _ _)); reflexivity.
Qed.


(** X12.  The function never raises, and it makes nothing up: what it returns
    is [None], an error marker, or a value that [json.loads] produced. *)
Theorem get_groq_analysis_result_cases predicted_class confidence :
  exists j,
    get_groq_analysis predicted_class confidence = Return j /\
    (j = JNull \/ is_error_marker j \/
     exists s, json_loads_str s = Return j).
Proof.
  unfold Groq.get_groq_analysis, get_groq_analysis_body.
  destruct current_app_config as [config|e]; simpl;
    [|eexists; split; [reflexivity|]; right; left; eexists; reflexivity].
  destruct (String.eqb (GROQ_API_KEY config) EmptyString);
    [eexists; split; [reflexivity|]; now left|].
  destruct (requests_post _) as [response|e]; simpl;
    [|eexists; split; [reflexivity|]; right; left; eexists; reflexivity].
  destruct (status_code response =? 200)%Z;
    [|eexists; split; [reflexivity|]; right; left; eexists; reflexivity].
  destruct (resp_json response) as [body|e]; simpl;
    [|eexists; split; [reflexivity|]; right; left; eexists; reflexivity].
  destruct (message_content body) as [content|e]; simpl;
    [|eexists; split; [reflexivity|]; right; left; eexists; reflexivity].
  destruct content as [ | b | q | s | items | fields]; simpl;
    try (eexists; split; [reflexivity|]; right; left; eexists; reflexivity).
  destruct (json_loads_str s) as [analysis|e] eqn:El; simpl;
    [eexists; split; [reflexivity|]; right; right; eauto|].
  destruct (is_JSONDecodeError e); simpl;
    [|eexists; split; [reflexivity|]; right; left; eexists; reflexivity].
  unfold extract_braces.
  destruct ((str_find "{" s >=? 0)%Z && _)%bool; simpl;
    [|eexists; split; [reflexivity|]; now left].
  destruct (json_loads_str (str_slice _ _ _)) as [analysis|e2] eqn:El2; simpl.
  - eexists; split; [reflexivity|]; right; right; eauto.
  - eexists; split; [reflexivity|]; right; left; eexists; reflexivity.
Qed.

End GetGroqAnalysisOutcomes.

Lemma get_groq_analysis_without_key_witness :
  Groq.get_groq_analysis Demo.no_key Demo.post_prose Demo.json_loads_str
                         "melanoma" (3 # 5) = Return JNull.
Proof.
  eapply (@get_groq_analysis_without_key Demo.no_key "melanoma" (3 # 5));
    reflexivity.
Defined.

Lemma get_groq_analysis_status_marker_witness :
  Groq.get_groq_analysis Demo.with_key Samples.post_unavailable
                         Demo.json_loads_str "melanoma" (3 # 5)
  = Return (error_marker "API request failed with status code 503").
Proof.
  apply (@get_groq_analysis_status_marker Demo.with_key
           Samples.post_unavailable Demo.json_loads_str "melanoma" (3 # 5)
           (mk_config "key" "llama2-70b-4096" "uploads")
           (mk_response 503 "Service Unavailable" (Return JNull)));
    [reflexivity | discriminate | reflexivity | discriminate].
Defined.

Lemma get_groq_analysis_decodes_content_witness :
  Groq.get_groq_analysis Demo.with_key Samples.post_object
                         Demo.json_loads_str "melanoma" (3 # 5)
  = Return (JObj []).
Proof.
  eapply (@get_groq_analysis_decodes_content Demo.with_key Samples.post_object
            Demo.json_loads_str "melanoma" (3 # 5));
    [reflexivity | discriminate | reflexivity | reflexivity | reflexivity
     | reflexivity | reflexivity].
Defined.

Lemma get_groq_analysis_recovers_wrapped_json_witness :
  Groq.get_groq_analysis Demo.with_key Samples.post_wrapped
                         Demo.json_loads_str "melanoma" (3 # 5)
  = Return (JObj []).
Proof.
  apply (@get_groq_analysis_recovers_wrapped_json Demo.with_key
           Samples.post_wrapped Demo.json_loads_str "melanoma" (3 # 5)
           (mk_config "key" "llama2-70b-4096" "uploads")
           (mk_response 200 EmptyString
                        (Return (Demo.chat_reply "Here it is: {} - take care")))
           (Demo.chat_reply "Here it is: {} - take care")
           "Here it is: {} - take care"
           (mk_exn JSONDecodeError "Expecting value"));
    [reflexivity | discriminate | reflexivity | reflexivity | reflexivity
     | reflexivity | reflexivity | reflexivity | simpl; lia].
Defined.


Lemma get_groq_analysis_network_failure_witness :
  Groq.get_groq_analysis Demo.with_key Demo.post_unreachable
                         Demo.json_loads_str "melanoma" (3 # 5)
  = Return (error_marker "connection refused").
Proof.
  apply (@get_groq_analysis_network_failure Demo.with_key
           Demo.post_unreachable Demo.json_loads_str "melanoma" (3 # 5)
           (mk_config "key" "llama2-70b-4096" "uploads")
           (mk_exn RequestException "connection refused"));
    [reflexivity | discriminate | reflexivity].
Defined.

(** ** predict_image: fallback, unusable outputs, enrichment *)

Section EnrichFacts.

Variable current_app_config : outcome Config.

(** Whether the enrichment step returns depends on the application
    context alone, not on what the API does. *)
Lemma enrich_outcome predicted_class confidence
    (post : Request -> outcome Response) (loads : string -> outcome json) :
  match current_app_config with
  | Return _ => returns (enrich current_app_config post loads
                                predicted_class confidence)
  | Raise e => enrich current_app_config post loads
                      predicted_class confidence = Raise e
  end.
Proof.
  unfold enrich. destruct current_app_config as [config|e]; simpl; [|reflexivity].
  destruct (String.eqb (GROQ_API_KEY config) EmptyString);
    [eexists; reflexivity|].
  apply try_except_returns; intros e; eexists; reflexivity.
Qed.

End EnrichFacts.

Section PredictImageOutcomes.

Variable load_h5 : outcome KerasModel.
Variable compile : KerasModel -> outcome unit.
Variable saved_model_dir_exists : bool.
Variable load_saved_model : outcome KerasModel.
Variable create_dummy_model : outcome KerasModel.
Variable current_app_config : outcome Config.
Variable requests_post : Request -> outcome Response.
Variable json_loads_str : string -> outcome json.

Local Abbreviation predict_image :=
  (Model.predict_image load_h5 compile saved_model_dir_exists load_saved_model
                       create_dummy_model current_app_config requests_post
                       json_loads_str).
Local Abbreviation load_model :=
  (Model.load_model load_h5 compile saved_model_dir_exists load_saved_model
                    create_dummy_model).

(** X13.  Every result is of one of two kinds: a normal one, without an error
    entry, whose distribution has the nine class labels as keys, in order,
    whose class index is within 0..8 and names the predicted label, and
    which has an enrichment entry; or the fallback one, built from the
    error raised. *)
Theorem predict_image_result_kinds image_array cache :
  exists r,
    fst (predict_image image_array cache) = Return r /\
    ((error r = None /\
      map fst (all_probabilities r) = class_labels /\
      nth_error class_labels (Z.to_nat (class_index r)) = Some (prediction r) /\
      (0 <= class_index r <= 8)%Z /\
      additional_analysis r <> None) \/
     exists e, r = fallback_prediction e).
Proof.
  unfold Model.predict_image.
  destruct (load_model cache) as [model cache']; simpl.
  destruct (Model.predict_with _ _ _ model image_array) as [r|e] eqn:Ep; simpl.
  - exists r; split; [reflexivity|]. left.
    apply predict_with_Return in Ep
      as (m & predictions & row & idx & p & label & extra & probs
          & _ & _ & _ & _ & _ & Hlabel & Hprobs & ->).
    simpl.
    apply probabilities_from_class_labels in Hprobs as (tl & _ & Hkeys).
    assert (Hidx : (idx < 9)%nat)
      by (change 9%nat with (length class_labels);
          apply nth_error_Some; congruence).
    rewrite Nat2Z.id.
    repeat split; auto; try lia; discriminate.
  - exists (fallback_prediction e); split; [reflexivity|]. right; eauto.
Qed.

(** X14.  An error raised by [model.predict] is not propagated: the fallback
    result comes back with the message of that error. *)
Theorem predict_image_reports_inference_error image_array cache m e :
  fst (load_model cache) = Return m ->
  m image_array = Raise e ->
  fst (predict_image image_array cache) = Return (fallback_prediction e).
Proof.
  unfold Model.predict_image.
  destruct (load_model cache) as [model cache']; simpl.
  intros -> He. unfold predict_with; simpl. rewrite He; reflexivity.
Qed.

(** X15.  A model whose output cannot be used gives the fallback result: an
    empty batch, a row of fewer than nine outputs, or a row whose largest
    output sits beyond the ninth place. *)
Theorem predict_image_unusable_output image_array cache m predictions :
  fst (load_model cache) = Return m ->
  m image_array = Return predictions ->
  (predictions = [] \/
   exists row rest,
     predictions = row :: rest /\
     ((length row < 9)%nat \/
      exists idx, np_argmax row = Return idx /\ (9 <= idx)%nat)) ->
  exists e, fst (predict_image image_array cache) = Return (fallback_prediction e).
Proof.
  unfold Model.predict_image.
  destruct (load_model cache) as [model cache']; simpl.
  intros -> Hp Hbad.
  destruct (Model.predict_with _ _ _ (Return m) image_array) as [r|e] eqn:Ep;
    simpl; [exfalso | eauto].
  apply predict_with_Return in Ep
    as (m' & predictions' & row & idx & p & label & extra & probs
        & [= <-] & Hm & Hrow & Hidx & _ & Hlabel & Hprobs & _).
  rewrite Hp in Hm; injection Hm as <-.
  destruct Hbad as [-> | (row' & rest & -> & Hbad)]; [discriminate|].
  injection Hrow as ->.
  destruct Hbad as [Hshort | (idx' & Hidx' & Hbig)].
  - apply probabilities_from_class_labels in Hprobs as (tl & -> & Hkeys).
    rewrite length_app, length_map, <- (length_map fst), Hkeys in Hshort.
    simpl in Hshort; lia.
  - rewrite Hidx in Hidx'; injection Hidx' as <-.
    assert (idx < length class_labels)%nat
      by (apply nth_error_Some; congruence).
    simpl in *; lia.
Qed.

(** X16.  The enrichment cannot spoil a prediction: whatever the API and the
    JSON decoder do, the label, confidence, class index, distribution and
    error entry of the result are the same. *)
Theorem predict_image_enrichment_independent image_array cache
    (post post' : Request -> outcome Response)
    (loads loads' : string -> outcome json) :
  exists r r',
    fst (Model.predict_image load_h5 compile saved_model_dir_exists
           load_saved_model create_dummy_model current_app_config
           post loads image_array cache) = Return r /\
    fst (Model.predict_image load_h5 compile saved_model_dir_exists
           load_saved_model create_dummy_model current_app_config
           post' loads' image_array cache) = Return r' /\
    prediction r = prediction r' /\
    confidence r = confidence r' /\
    class_index r = class_index r' /\
    all_probabilities r = all_probabilities r' /\
    error r = error r'.
Proof.
  unfold Model.predict_image.
  destruct (load_model cache) as [model cache']; cbn [fst].
  unfold predict_with.
  destruct model as [m|e]; cbn [bind try_except];
    [|do 2 eexists; repeat split].
  destruct (m image_array) as [predictions|e]; cbn [bind try_except];
    [|do 2 eexists; repeat split].
  destruct (getitem predictions 0) as [row|e]; cbn [bind try_except];
    [|do 2 eexists; repeat split].
  destruct (np_argmax row) as [idx|e]; cbn [bind try_except];
    [|do 2 eexists; repeat split].
  destruct (getitem row idx) as [p|e]; cbn [bind try_except];
    [|do 2 eexists; repeat split].
  destruct (getitem class_labels idx) as [label|e]; cbn [bind try_except];
    [|do 2 eexists; repeat split].
  pose proof (enrich_outcome current_app_config label p post loads) as H1.
  pose proof (enrich_outcome current_app_config label p post' loads') as H2.
  destruct current_app_config as [config|e].
  - destruct H1 as (j1 & ->), H2 as (j2 & ->); cbn [bind try_except].
    destruct (probabilities_from row 0 class_labels) as [probs|e];
      cbn [bind try_except]; do 2 eexists; repeat split.
  - rewrite H1, H2; cbn [bind try_except]. do 2 eexists; repeat split.
Qed.

(** X17.  With nothing cached, a model that [load_model] hands back comes from
    the first loader, in the order .h5 file, SavedModel directory,
    placeholder, that succeeds. *)
Theorem load_model_source m :
  fst (load_model None) = Return m ->
  (load_h5 = Return m /\ compile m = Return tt) \/
  (falls_back_to_dummy load_h5 compile saved_model_dir_exists
                       load_saved_model None = false /\
   (forall m0, load_h5 = Return m0 -> compile m0 <> Return tt) /\
   saved_model_dir_exists = true /\ load_saved_model = Return m) \/
  (falls_back_to_dummy load_h5 compile saved_model_dir_exists
                       load_saved_model None = true /\
   create_dummy_model = Return m).
Proof.
  unfold Model.load_model, load_fallback, dummy_after_failure,
    falls_back_to_dummy.
  destruct load_h5 as [m0|e0].
  - destruct (compile m0) as [[]|e1] eqn:Ec; simpl.
    + intros [= <-]; left; auto.
    + destruct saved_model_dir_exists; simpl.
      * destruct load_saved_model as [ms|es]; simpl.
        -- intros [= <-]; right; left; repeat split; auto.
           intros m1 [= <-]; congruence.
        -- destruct create_dummy_model; simpl; intros [= <-]; right; right; auto.
      * destruct create_dummy_model; simpl; intros [= <-]; right; right; auto.
  - destruct saved_model_dir_exists; simpl.
    + destruct load_saved_model as [ms|es]; simpl.
      * intros [= <-]; right; left; repeat split; auto. discriminate.
      * destruct create_dummy_model; simpl; intros [= <-]; right; right; auto.
    + destruct create_dummy_model; simpl; intros [= <-]; right; right; auto.
Qed.

End PredictImageOutcomes.

Lemma predict_image_reports_inference_error_witness :
  fst (Model.predict_image (Return Samples.failing_classifier) Demo.compile
         false Demo.missing Demo.missing Demo.no_key Demo.post_unreachable
         Demo.json_loads_str Demo.tensor None)
  = Return (mk_result "unknown" 0 (-1) [] None
              (Some "Input 0 of layer is incompatible with the layer"%string)).
Proof.
  apply (@predict_image_reports_inference_error
           (Return Samples.failing_classifier) Demo.compile false Demo.missing
           Demo.missing Demo.no_key Demo.post_unreachable Demo.json_loads_str
           Demo.tensor None Samples.failing_classifier
           (mk_exn ValueError "Input 0 of layer is incompatible with the layer"));
    reflexivity.
Defined.

Lemma predict_image_unusable_output_witness :
  exists e,
    fst (Model.predict_image (Return Samples.binary_classifier) Demo.compile
           false Demo.missing Demo.missing Demo.no_key Demo.post_unreachable
           Demo.json_loads_str Demo.tensor None)
    = Return (fallback_prediction e).
Proof.
  apply (@predict_image_unusable_output
           (Return Samples.binary_classifier) Demo.compile false Demo.missing
           Demo.missing Demo.no_key Demo.post_unreachable Demo.json_loads_str
           Demo.tensor None Samples.binary_classifier [[1 # 4; 3 # 4]]);
    [reflexivity | reflexivity |].
  right. exists [1 # 4; 3 # 4], []. split; [reflexivity|]. left; simpl; lia.
Defined.

Lemma load_model_source_witness :
  (Demo.missing = Return Demo.classifier /\
   Demo.compile Demo.classifier = Return tt) \/
  (falls_back_to_dummy Demo.missing Demo.compile false Demo.missing None = false /\
   (forall m0, Demo.missing = Return m0 -> Demo.compile m0 <> Return tt) /\
   false = true /\ Demo.missing = Return Demo.classifier) \/
  (falls_back_to_dummy Demo.missing Demo.compile false Demo.missing None = true /\
   Return Demo.classifier = Return Demo.classifier).
Proof.
  apply (@load_model_source Demo.missing Demo.compile false Demo.missing
           (Return Demo.classifier) Demo.classifier).
  reflexivity.
Defined.

(** ** The upload views *)

(** [predict_image] returns, and the label is "unknown" or a class label. *)
Lemma predict_image_label
    load_h5 compile saved_model_dir_exists load_saved_model create_dummy_model
    current_app_config requests_post json_loads_str image_array cache :
  exists r,
    fst (Model.predict_image load_h5 compile saved_model_dir_exists
           load_saved_model create_dummy_model current_app_config
           requests_post json_loads_str image_array cache) = Return r /\
    In (prediction r) ("unknown"%string :: class_labels).
Proof.
  unfold Model.predict_image.
  destruct (Model.load_model _ _ _ _ _ cache) as [model cache']; simpl fst.
  destruct (Model.predict_with _ _ _ model image_array) as [r|e] eqn:Ep;
    cbn [try_except].
  - exists r; split; [reflexivity|]. right.
    apply predict_with_Return in Ep
      as (m & predictions & row & idx & p & label & extra & probs
          & _ & _ & _ & _ & _ & Hlabel & _ & ->).
    cbn [prediction]. eapply nth_error_In; exact Hlabel.
  - exists (fallback_prediction e); split; [reflexivity|]. now left.
Qed.

Section UploadOutcomes.

Import DiagnosisViews.

Variable allowed_file : string -> bool.
Variable secure_filename : string -> string.
Variable splitext_ext : string -> string.
Variable uuid4 : string.
Variable now : string.
Variable upload_folder_writable : bool.
Variable decode : string -> outcome PILImage.
Variable resample : PILImage -> nat * nat -> outcome (list Z).
Variable load_h5 : outcome KerasModel.
Variable compile : KerasModel -> outcome unit.
Variable saved_model_dir_exists : bool.
Variable load_saved_model : outcome KerasModel.
Variable create_dummy_model : outcome KerasModel.
Variable current_app_config : outcome Config.
Variable requests_post : Request -> outcome Response.
Variable json_loads_str : string -> outcome json.

Local Abbreviation upload :=
  (Diagnosis.upload allowed_file secure_filename splitext_ext uuid4 now
                    upload_folder_writable decode resample load_h5 compile
                    saved_model_dir_exists load_saved_model create_dummy_model
                    current_app_config requests_post json_loads_str).
Local Abbreviation api_upload :=
  (DiagnosisViews.api_upload allowed_file secure_filename splitext_ext uuid4
                    upload_folder_writable decode resample load_h5 compile
                    saved_model_dir_exists load_saved_model create_dummy_model
                    current_app_config requests_post json_loads_str).
Local Abbreviation predict_image :=
  (Model.predict_image load_h5 compile saved_model_dir_exists load_saved_model
                       create_dummy_model current_app_config requests_post
                       json_loads_str).
Local Abbreviation preprocess_image :=
  (fun files => Preprocessing.preprocess_image (Image_open decode files) resample).

(** X18.  Every answer of the upload view is of one of two kinds.  Either it
    redirects to the results page, flashes nothing, and the session holds a
    diagnosis whose label is "unknown" or a class label and whose file name
    is that of the upload just saved; or it redirects to the upload page,
    flashes exactly one message, of category "error", and leaves the
    session and the cached model as they were. *)
Theorem upload_outcomes request st response st' :
  upload request st = Return (response, st') ->
  (response = redirect "diagnosis.results" /\
   flashed st' = flashed st /\
   exists d file config,
     session_diagnosis_result st' = Some d /\
     In (dr_prediction d) ("unknown"%string :: class_labels) /\
     request_file request = Some file /\
     current_app_config = Return config /\
     dr_original_filename d = secure_filename (filename file) /\
     disk st' =
       ((UPLOAD_FOLDER config ++ "/" ++ dr_filename d)%string, stream file)
       :: disk st) \/
  (response = redirect "diagnosis.index" /\
   session_diagnosis_result st' = session_diagnosis_result st /\
   model_cache st' = model_cache st /\
   exists message, flashed st' = flashed st ++ [(message, "error"%string)]).
Proof.
  unfold Diagnosis.upload.
  destruct (request_file request) as [file|] eqn:Hfile;
    [|intros H; inversion H; subst; right; simpl; eauto].
  destruct (String.eqb (filename file) EmptyString);
    [intros H; inversion H; subst; right; simpl; eauto|].
  destruct (allowed_file (filename file));
    [|intros H; inversion H; subst; right; simpl; eauto].
  destruct current_app_config as [config|e]; cbn [bind]; [|discriminate].
  unfold file_save. destruct upload_folder_writable; cbn [bind]; [|discriminate].
  unfold diagnose. cbn [disk model_cache session_diagnosis_result flashed].
  destruct (Preprocessing.preprocess_image _ _ _ _) as [tensor|e];
    [|intros H; inversion H; subst; right; simpl; eauto].
  destruct (predict_image_label load_h5 compile saved_model_dir_exists
              load_saved_model create_dummy_model (Return config)
              requests_post json_loads_str tensor (model_cache st)) as (r & Hr & Hlabel).
  destruct (Model.predict_image _ _ _ _ _ _ _ _ tensor (model_cache st))
    as [result cache'].
  simpl in Hr; subst result.
  intros H; inversion H; subst. left. simpl.
  split; [reflexivity|]. split; [reflexivity|].
  exists (mk_diagnosis (uuid4 ++ splitext_ext (secure_filename (filename file)))
                       (secure_filename (filename file))
                       (prediction r) (confidence r) now), file, config.
  repeat split; auto.
Qed.


(** X20.  Once the image is preprocessed the upload always ends on the results
    page: a failure of the model is not reported as an error but stored as
    the diagnosis "unknown" with confidence 0. *)
Theorem upload_inference_failure_shows_unknown
    request file config st tensor m e :
  request_file request = Some file ->
  filename file <> EmptyString ->
  allowed_file (filename file) = true ->
  current_app_config = Return config ->
  upload_folder_writable = true ->
  let original_filename := secure_filename (filename file) in
  let unique_filename := (uuid4 ++ splitext_ext original_filename)%string in
  let file_path := (UPLOAD_FOLDER config ++ "/" ++ unique_filename)%string in
  let saved := (file_path, stream file) :: disk st in
  preprocess_image saved file_path default_target_size = Return tensor ->
  fst (Model.load_model load_h5 compile saved_model_dir_exists
                        load_saved_model create_dummy_model (model_cache st))
    = Return m ->
  m tensor = Raise e ->
  exists st',
    upload request st = Return (redirect "diagnosis.results", st') /\
    session_diagnosis_result st' =
      Some (mk_diagnosis unique_filename original_filename "unknown" 0 now) /\
    flashed st' = flashed st.
Proof.
  intros Hfile Hname Hallowed Hconfig Hwrite original_filename unique_filename
    file_path saved Hpre Hload He.
  apply String.eqb_neq in Hname.
  unfold Diagnosis.upload. rewrite Hfile, Hname, Hallowed, Hconfig.
  unfold bind, file_save; rewrite Hwrite.
  unfold diagnose, disk at 1.
  fold original_filename; fold unique_filename; fold file_path; fold saved.
  rewrite Hpre. cbn [model_cache].
  unfold Model.predict_image.
  destruct (Model.load_model _ _ _ _ _ (model_cache st)) as [model cache'].
  simpl in Hload; subst model.
  unfold predict_with; cbn [bind]. rewrite He. cbn [try_except].
  eexists; split; [reflexivity|]. split; reflexivity.
Qed.

(** X21.  The JSON view answers with one of three statuses.  400: the upload
    was refused and nothing changed.  500: preprocessing failed and the
    body carries the message of the error raised.  200: the body carries
    the prediction with the two file names.  It never flashes and never
    writes the session. *)
Theorem api_upload_outcomes request st body status st' :
  api_upload request st = Return (body, status, st') ->
  session_diagnosis_result st' = session_diagnosis_result st /\
  flashed st' = flashed st /\
  ((status = 400%Z /\ st' = st /\ exists message, body = api_failure message) \/
   (status = 500%Z /\ model_cache st' = model_cache st /\
    exists file_path e,
      preprocess_image (disk st') file_path default_target_size = Raise e /\
      body = api_failure (exn_str e)) \/
   (status = 200%Z /\
    exists r file,
      request_file request = Some file /\
      In (prediction r) ("unknown"%string :: class_labels) /\
      body = api_success r
               (uuid4 ++ splitext_ext (secure_filename (filename file)))
               (secure_filename (filename file)))).
Proof.
  unfold DiagnosisViews.api_upload.
  destruct (request_file request) as [file|] eqn:Hfile;
    [|intros H; inversion H; subst; repeat split; left; eauto].
  destruct (String.eqb (filename file) EmptyString);
    [intros H; inversion H; subst; repeat split; left; eauto|].
  destruct (allowed_file (filename file));
    [|intros H; inversion H; subst; repeat split; left; eauto].
  destruct current_app_config as [config|e]; cbn [bind]; [|discriminate].
  unfold file_save. destruct upload_folder_writable; cbn [bind]; [|discriminate].
  unfold api_diagnose. cbn [disk model_cache session_diagnosis_result flashed].
  destruct (Preprocessing.preprocess_image _ _ _ _) as [tensor|e] eqn:Hpre.
  - destruct (predict_image_label load_h5 compile saved_model_dir_exists
              load_saved_model create_dummy_model (Return config)
              requests_post json_loads_str tensor (model_cache st)) as (r & Hr & Hlabel).
    destruct (Model.predict_image _ _ _ _ _ _ _ _ tensor (model_cache st))
      as [result cache'].
    simpl in Hr; subst result.
    intros H; inversion H; subst. simpl. repeat split. right; right.
    split; [reflexivity|]. exists r, file. auto.
  - intros H; inversion H; subst. simpl. repeat split. right; left.
    split; [reflexivity|]. split; [reflexivity|]. eauto.
Qed.

(** X22.  The two upload views agree.  On the same request and state they
    raise together or return together; when they return, they leave the
    same files on disk and the same cached model, the page view redirects
    to the results exactly when the JSON view answers 200, and then the
    diagnosis stored in the session is the label, confidence and file
    names of the JSON result. *)
Theorem upload_and_api_upload_agree request st :
  match upload request st, api_upload request st with
  | Return (response, st1), Return (body, status, st2) =>
      disk st1 = disk st2 /\
      model_cache st1 = model_cache st2 /\
      (response = redirect "diagnosis.results" <-> status = 200%Z) /\
      forall r f o,
        body = api_success r f o ->
        session_diagnosis_result st1 =
          Some (mk_diagnosis f o (prediction r) (confidence r) now)
  | Raise e1, Raise e2 => e1 = e2
  | _, _ => False
  end.
Proof.
  unfold Diagnosis.upload, DiagnosisViews.api_upload.
  destruct (request_file request) as [file|];
    [|repeat split; try discriminate].
  destruct (String.eqb (filename file) EmptyString);
    [repeat split; try discriminate|].
  destruct (allowed_file (filename file));
    [|repeat split; try discriminate].
  destruct current_app_config as [config|e]; cbn [bind]; [|reflexivity].
  unfold file_save. destruct upload_folder_writable; cbn [bind]; [|reflexivity].
  unfold diagnose, api_diagnose.
  cbn [disk model_cache session_diagnosis_result flashed].
  destruct (Preprocessing.preprocess_image _ _ _ _) as [tensor|e];
    [|repeat split; try discriminate].
  destruct (predict_image_label load_h5 compile saved_model_dir_exists
              load_saved_model create_dummy_model (Return config)
              requests_post json_loads_str tensor (model_cache st)) as (r & Hr & _).
  destruct (Model.predict_image _ _ _ _ _ _ _ _ tensor (model_cache st))
    as [result cache'].
  simpl in Hr; subst result. simpl.
  repeat split; try discriminate. intros r' f o H; inversion H; subst; reflexivity.
Qed.

End UploadOutcomes.

Lemma upload_outcomes_witness :
  exists st',
    Demo.upload Samples.two_pixel_upload Demo.empty_state
      = Return (redirect "diagnosis.results", st') /\
    flashed st' = [] /\
    exists d,
      session_diagnosis_result st' = Some d /\
      In (dr_prediction d) ("unknown"%string :: class_labels) /\
      dr_original_filename d = "lesion.png"%string /\
      disk st' = [(("uploads/" ++ dr_filename d)%string, "ab"%string)].
Proof.
  eexists. split; [reflexivity|].
  destruct (@upload_outcomes Demo.allowed_file (fun name => name)
              Samples.extension "0f8fad5b" "2024-01-01 00:00:00" true
              Demo.decode Demo.nearest (Return Demo.classifier) Demo.compile
              false Demo.missing (Return Demo.classifier) Demo.no_key
              Demo.post_unreachable Demo.json_loads_str
              Samples.two_pixel_upload Demo.empty_state _ _ eq_refl)
    as [(_ & Hflash & d & file & config & Hd & Hlabel & Hfile & Hconfig & Hname & Hdisk)
       | (Habs & _)]; [|discriminate Habs].
  split; [exact Hflash|]. exists d.
  injection Hfile as <-. injection Hconfig as <-.
  split; [exact Hd|]. split; [exact Hlabel|]. split; [exact Hname | exact Hdisk].
Defined.


Lemma upload_inference_failure_shows_unknown_witness :
  exists st',
    Diagnosis.upload Demo.allowed_file (fun name => name) Samples.extension
      "0f8fad5b" "2024-01-01 00:00:00" true Demo.decode Demo.nearest
      (Return Samples.failing_classifier) Demo.compile false Demo.missing
      Demo.missing Demo.no_key Demo.post_unreachable Demo.json_loads_str
      Samples.two_pixel_upload Demo.empty_state
    = Return (redirect "diagnosis.results", st') /\
    session_diagnosis_result st' =
      Some (mk_diagnosis "0f8fad5b.png" "lesion.png" "unknown" 0
                         "2024-01-01 00:00:00") /\
    flashed st' = [].
Proof.
  eapply (@upload_inference_failure_shows_unknown Demo.allowed_file
            (fun name => name) Samples.extension "0f8fad5b"
            "2024-01-01 00:00:00" true Demo.decode Demo.nearest
            (Return Samples.failing_classifier) Demo.compile false Demo.missing
            Demo.missing Demo.no_key Demo.post_unreachable Demo.json_loads_str
            Samples.two_pixel_upload (mk_file "lesion.png" "ab")
            (mk_config EmptyString "llama2-70b-4096" "uploads")
            Demo.empty_state _ Samples.failing_classifier);
    [reflexivity | discriminate | reflexivity | reflexivity | reflexivity
     | reflexivity | reflexivity | reflexivity].
Defined.

Lemma api_upload_outcomes_witness :
  exists st',
    DiagnosisViews.api_upload Demo.allowed_file (fun name => name)
      Samples.extension "0f8fad5b" true Demo.decode Demo.nearest
      (Return Demo.classifier) Demo.compile false Demo.missing
      (Return Demo.classifier) Demo.no_key Demo.post_unreachable
      Demo.json_loads_str Demo.empty_upload Demo.empty_state
    = Return (DiagnosisViews.api_failure "cannot identify image file",
              500%Z, st') /\
    session_diagnosis_result st' = None /\ flashed st' = [].
Proof.
  eexists. split; [reflexivity|].
  destruct (@api_upload_outcomes Demo.allowed_file (fun name => name)
              Samples.extension "0f8fad5b" true Demo.decode Demo.nearest
              (Return Demo.classifier) Demo.compile false Demo.missing
              (Return Demo.classifier) Demo.no_key Demo.post_unreachable
              Demo.json_loads_str Demo.empty_upload Demo.empty_state
              _ _ _ eq_refl)
    as (Hsession & Hflash & _).
  split; [exact Hsession | exact Hflash].
Defined.

(** ** The results view and its helpers *)

Lemma assoc_In {V} k (kvs : list (string * V)) v :
  assoc k kvs = Some v -> In (k, v) kvs.
Proof.
  induction kvs as [|[k' v'] rest IH]; simpl; [discriminate|].
  destruct (String.eqb k k') eqn:E.
  - apply String.eqb_eq in E. intros [= ->]. left; congruence.
  - intros H; right; now apply IH.
Qed.

Section ResultsFacts.

Import DiagnosisViews.

Variable lower : string -> string.
Variable title : string -> string.
Variable url_for : string -> string.

Local Abbreviation get_condition_info :=
  (DiagnosisViews.get_condition_info lower title url_for).
Local Abbreviation generate_recommendations :=
  (DiagnosisViews.generate_recommendations lower).
Local Abbreviation results := (DiagnosisViews.results lower title url_for).

(** X23.  Whatever the condition name, the recommendations begin with the four
    common ones, followed by nothing or by two specific ones, and the
    condition information has a name, a description, a severity and a
    link. *)
Theorem results_helpers_always_answer condition_name :
  (exists specific,
     generate_recommendations condition_name
       = common_recommendations ++ specific /\
     (specific = [] \/ length specific = 2%nat)) /\
  forall key,
    In key ["name"; "description"; "severity"; "learn_more_url"]%string ->
    exists text, assoc key (get_condition_info condition_name) = Some (Text text).
Proof.
  split.
  - unfold DiagnosisViews.generate_recommendations.
    destruct (assoc (lower condition_name) condition_specific) as [recs|] eqn:E.
    + exists recs; split; [reflexivity|]. right.
      apply assoc_In in E. simpl in E.
      destruct E as [E|[E|[E|[]]]]; injection E as _ <-; reflexivity.
    + exists []; split; [reflexivity | now left].
  - intros key Hkey. unfold DiagnosisViews.get_condition_info.
    destruct (assoc (lower condition_name) conditions) as [i|] eqn:E.
    + apply assoc_In in E. simpl in E.
      destruct E as [E|[E|[E|[]]]]; injection E as _ <-;
        simpl in Hkey;
        destruct Hkey as [<-|[<-|[<-|[<-|[]]]]]; eexists; reflexivity.
    + simpl in Hkey.
      destruct Hkey as [<-|[<-|[<-|[<-|[]]]]]; eexists; reflexivity.
Qed.

(** X24.  Of the labels a prediction can carry, only three have entries of their
    own: for the other six class labels, and for "unknown", the page gets
    the default information (severity "Unknown") and the four common
    recommendations alone. *)
Theorem results_helpers_on_labels label :
  (forall l, In l ("unknown"%string :: class_labels) -> lower l = l) ->
  In label ("unknown"%string :: class_labels) ->
  (In label ["actinic keratosis"; "basal cell carcinoma"; "melanoma"]%string ->
   length (generate_recommendations label) = 6%nat /\
   exists severity,
     assoc "severity" (get_condition_info label) = Some (Text severity) /\
     severity <> "Unknown"%string) /\
  (~ In label ["actinic keratosis"; "basal cell carcinoma"; "melanoma"]%string ->
   generate_recommendations label = common_recommendations /\
   get_condition_info label = default_info title url_for label).
Proof.
  intros Hlower Hlabel.
  unfold DiagnosisViews.generate_recommendations,
    DiagnosisViews.get_condition_info.
  rewrite (Hlower label Hlabel).
  unfold class_labels in Hlabel. simpl in Hlabel.
  repeat (destruct Hlabel as [<-|Hlabel]); [.. | contradiction];
    (split;
     [ intros Hin;
       first [ solve [split; [reflexivity
                             | eexists; split; [reflexivity | discriminate]]]
             | solve [exfalso; simpl in Hin; intuition discriminate] ]
     | intros Hout;
       first [ solve [split; reflexivity]
             | solve [exfalso; apply Hout; simpl; tauto] ] ]).
Qed.

(** The results view shows what the session holds: without a stored
    diagnosis it redirects to the upload page with one error message and
    changes nothing else; with one it renders the page for that diagnosis
    and leaves the state alone. *)
Theorem results_shows_stored_diagnosis st :
  match session_diagnosis_result st with
  | None =>
      exists message,
        results st =
          (results_redirect "diagnosis.index",
           mk_state None (flashed st ++ [(message, "error"%string)])
                    (disk st) (model_cache st))
  | Some d =>
      exists info recommendations,
        results st = (results_page d info recommendations, st) /\
        info = get_condition_info (dr_prediction d) /\
        recommendations = generate_recommendations (dr_prediction d)
  end.
Proof.
  unfold DiagnosisViews.results, flash.
  destruct (session_diagnosis_result st) as [d|] eqn:E.
  - do 2 eexists; repeat split.
  - eexists; reflexivity.
Qed.

End ResultsFacts.

Lemma results_helpers_on_labels_witness :
  (In "nevus"%string ["actinic keratosis"; "basal cell carcinoma"; "melanoma"]%string ->
   length (DiagnosisViews.generate_recommendations str_lower "nevus") = 6%nat /\
   exists severity,
     assoc "severity"
           (DiagnosisViews.get_condition_info str_lower str_title
              (fun _ => "/education/conditions"%string) "nevus")
       = Some (Text severity) /\
     severity <> "Unknown"%string) /\
  (~ In "nevus"%string ["actinic keratosis"; "basal cell carcinoma"; "melanoma"]%string ->
   DiagnosisViews.generate_recommendations str_lower "nevus"
     = DiagnosisViews.common_recommendations /\
   DiagnosisViews.get_condition_info str_lower str_title
     (fun _ => "/education/conditions"%string) "nevus"
     = DiagnosisViews.default_info str_title
         (fun _ => "/education/conditions"%string) "nevus").
Proof.
  apply (@results_helpers_on_labels str_lower str_title
           (fun _ => "/education/conditions"%string) "nevus").
  - intros l Hl. unfold class_labels in Hl. simpl in Hl.
    repeat (destruct Hl as [<-|Hl]; [reflexivity|]). destruct Hl.
  - unfold class_labels; simpl; tauto.
Defined.

(** ** The condition catalogue *)

Lemma find_condition_Some condition_id l c :
  Education.find_condition condition_id l = Some c ->
  In c l /\ Education.c_id c = condition_id.
Proof.
  induction l as [|x rest IH]; simpl; [discriminate|].
  destruct (String.eqb (Education.c_id x) condition_id) eqn:E.
  - apply String.eqb_eq in E. intros [= <-]; auto.
  - intros H; destruct (IH H); auto.
Qed.

Lemma find_condition_None condition_id l :
  Education.find_condition condition_id l = None <->
  ~ In condition_id (map Education.c_id l).
Proof.
  induction l as [|x rest IH]; simpl; [tauto|].
  destruct (String.eqb (Education.c_id x) condition_id) eqn:E.
  - apply String.eqb_eq in E. split; [discriminate | intros H; exfalso; auto].
  - apply String.eqb_neq in E. rewrite IH. tauto.
Qed.

Lemma insert_by_Permutation {A} (precedes : A -> A -> bool) x l :
  Permutation (Education.insert_by precedes x l) (x :: l).
Proof.
  induction l as [|y rest IH]; simpl; [reflexivity|].
  destruct (precedes x y); [reflexivity|].
  rewrite IH. apply perm_swap.
Qed.

Lemma sort_by_Permutation {A} (precedes : A -> A -> bool) l :
  Permutation (Education.sort_by precedes l) l.
Proof.
  induction l as [|x rest IH]; simpl; [reflexivity|].
  rewrite insert_by_Permutation. now constructor.
Qed.

Lemma insert_by_Sorted {A} (precedes : A -> A -> bool) x l :
  (forall a b, precedes a b = false -> precedes b a = true) ->
  Sorted (fun a b => precedes a b = true) l ->
  Sorted (fun a b => precedes a b = true) (Education.insert_by precedes x l).
Proof.
  intros Htotal; induction 1 as [|y rest Hs IH Hhd]; simpl.
  - repeat constructor.
  - destruct (precedes x y) eqn:E.
    + constructor; [constructor; assumption | constructor; exact E].
    + constructor; [exact IH|].
      destruct rest as [|z rest']; simpl.
      * constructor; now apply Htotal.
      * destruct (precedes x z); constructor.
        -- now apply Htotal.
        -- now inversion Hhd.
Qed.

Lemma sort_by_Sorted {A} (precedes : A -> A -> bool) l :
  (forall a b, precedes a b = false -> precedes b a = true) ->
  Sorted (fun a b => precedes a b = true) (Education.sort_by precedes l).
Proof.
  intros Htotal; induction l as [|x rest IH]; simpl; [constructor|].
  now apply insert_by_Sorted.
Qed.

Lemma sort_descending_StronglySorted {A} (key : A -> Z) l :
  StronglySorted (fun a b => key b <= key a)%Z (Education.sort_descending key l).
Proof.
  apply Sorted_StronglySorted; [intros a b c; lia|].
  unfold Education.sort_descending.
  eapply Sorted_ind with
    (P := fun l => Sorted (fun a b => (key b <= key a)%Z) l);
    [constructor | | apply (@sort_by_Sorted _ (fun x y => (key y <=? key x)%Z));
                     intros a b H; apply Z.leb_le; apply Z.leb_gt in H; lia].
  intros a l0 _ IH Hhd. constructor; [exact IH|].
  destruct Hhd as [|b l1 Hb]; constructor. now apply Z.leb_le.
Qed.

Lemma sort_ascending_Sorted {A} (key : A -> string) l :
  Sorted (fun a b => String.leb (key a) (key b) = true)
         (Education.sort_ascending key l).
Proof.
  unfold Education.sort_ascending.
  apply (@sort_by_Sorted _ (fun x y => String.leb (key x) (key y))).
  intros a b H. destruct (String.leb_total (key a) (key b)); congruence.
Qed.

Section CatalogueFacts.

Import Education.

Variable lower : string -> string.
Variable contains : string -> string -> bool.

Local Abbreviation conditions := (Education.conditions lower contains).
Local Abbreviation severity_key := (Education.severity_key lower).
Local Abbreviation prevalence_key := (Education.prevalence_key lower).

(** X25.  The detail page answers 404 exactly for the ids that are not in the
    catalogue; otherwise it shows the condition with that id. *)
Theorem condition_detail_404_iff_unknown condition_id :
  (condition_detail condition_id = abort_404 <->
   ~ In condition_id (map c_id get_all_conditions)) /\
  forall condition related,
    condition_detail condition_id = detail_page condition related ->
    c_id condition = condition_id /\
    related = get_related_conditions condition_id /\
    exists listed,
      In listed get_all_conditions /\
      c_id listed = condition_id /\
      c_name condition = c_name listed /\
      c_description condition = c_description listed /\
      c_severity condition = c_severity listed.
Proof.
  unfold condition_detail, get_condition_by_id.
  pose proof (find_condition_None condition_id get_all_conditions) as Hnone.
  destruct (find_condition condition_id get_all_conditions) as [c|] eqn:E;
    simpl.
  - split.
    + split; [discriminate|]. intros H; apply Hnone in H; discriminate.
    + intros condition related [= <- <-].
      apply find_condition_Some in E as [Hin Hid].
      assert (Hsame : forall f : Condition -> string,
                 (forall c0 more, f (with_more c0 more) = f c0) ->
                 f (add_details condition_id c) = f c).
      { intros f Hf. unfold add_details.
        destruct (String.eqb condition_id "actinic-keratosis"); [apply Hf|].
        destruct (String.eqb condition_id "melanoma"); [apply Hf | reflexivity]. }
      split; [rewrite (Hsame c_id) by reflexivity; exact Hid|].
      split; [reflexivity|].
      exists c. rewrite (Hsame c_name), (Hsame c_description),
        (Hsame c_severity) by reflexivity. auto.
  - split; [|discriminate].
    split; [intros _; now apply Hnone | reflexivity].
Qed.

(** X26.  The related conditions of a catalogue entry are exactly the entries
    its ['related'] list names, in that order: no id in the lists is
    dangling, and no entry is related to itself.  An unknown id has none. *)
Theorem get_related_conditions_resolves_all condition_id :
  match find_condition condition_id get_all_conditions with
  | Some condition =>
      map c_id (get_related_conditions condition_id) = c_related condition /\
      ~ In condition_id (c_related condition) /\
      Forall (fun c => In c get_all_conditions)
             (get_related_conditions condition_id)
  | None => get_related_conditions condition_id = []
  end.
Proof.
  destruct (find_condition condition_id get_all_conditions) as [c|] eqn:E.
  - apply find_condition_Some in E as [Hin Hid]. subst condition_id.
    unfold get_all_conditions in Hin at 1. simpl in Hin.
    repeat (destruct Hin as [<-|Hin];
            [split; [reflexivity|];
             split; [simpl; intuition discriminate|];
             repeat constructor; simpl; tauto|]).
    destruct Hin.
  - unfold get_related_conditions. now rewrite E.
Qed.

(** X27.  The catalogue page lists exactly the conditions whose lowered name
    contains the lowered search text (all of them when there is none), each
    once, whatever the sort key. *)
Theorem conditions_lists_the_matches args_search args_sort :
  let search_query :=
    lower (match args_search with Some q => q | None => EmptyString end) in
  snd (fst (conditions args_search args_sort)) = search_query /\
  Permutation
    (fst (fst (conditions args_search args_sort)))
    (if String.eqb search_query EmptyString then get_all_conditions
     else filter (fun c => contains search_query (lower (c_name c)))
                 get_all_conditions) /\
  forall c,
    In c (fst (fst (conditions args_search args_sort))) <->
    In c get_all_conditions /\
    (search_query = EmptyString \/
     contains search_query (lower (c_name c)) = true).
Proof.
  intros search_query. unfold Education.conditions. fold search_query.
  cbn [fst snd]. split; [reflexivity|].
  set (filtered := if String.eqb search_query EmptyString then get_all_conditions
                   else filter _ get_all_conditions).
  assert (Hperm : Permutation
            (if String.eqb match args_sort with Some k => k | None => "name" end
                           "severity"
             then sort_descending severity_key filtered
             else if String.eqb match args_sort with Some k => k | None => "name" end
                                "prevalence"
                  then sort_descending prevalence_key filtered
                  else sort_ascending c_name filtered)
            filtered).
  { destruct (String.eqb _ "severity"); [apply sort_by_Permutation|].
    destruct (String.eqb _ "prevalence"); apply sort_by_Permutation. }
  split; [exact Hperm|].
  intros c. split.
  - intros Hin. apply (Permutation_in _ Hperm) in Hin.
    subst filtered. destruct (String.eqb search_query EmptyString) eqn:E.
    + apply String.eqb_eq in E. auto.
    + apply filter_In in Hin as [Hin Hc]. auto.
  - intros [Hin Hmatch].
    apply (Permutation_in _ (Permutation_sym Hperm)).
    subst filtered. destruct (String.eqb search_query EmptyString) eqn:E;
      [exact Hin|].
    apply String.eqb_neq in E. apply filter_In. split; [exact Hin|].
    destruct Hmatch; [contradiction | assumption].
Qed.

(** X28.  The catalogue page is ordered by the key asked for: by falling
    severity rank or falling prevalence rank (a text without a rank counts
    0 and comes last), and by rising name for any other or no key. *)
Theorem conditions_are_ordered args_search args_sort :
  let listed := fst (fst (conditions args_search args_sort)) in
  (args_sort = Some "severity"%string ->
   StronglySorted (fun a b => severity_key b <= severity_key a)%Z listed) /\
  (args_sort = Some "prevalence"%string ->
   StronglySorted (fun a b => prevalence_key b <= prevalence_key a)%Z listed) /\
  ((forall k, args_sort = Some k ->
              k <> "severity"%string /\ k <> "prevalence"%string) ->
   Sorted (fun a b => String.leb (c_name a) (c_name b) = true) listed).
Proof.
  unfold Education.conditions; cbn [fst snd].
  split; [|split].
  - intros ->. cbn [String.eqb Ascii.eqb Bool.eqb].
    apply sort_descending_StronglySorted.
  - intros ->. cbn [String.eqb Ascii.eqb Bool.eqb].
    apply sort_descending_StronglySorted.
  - intros Hother.
    destruct args_sort as [k|]; [|apply sort_ascending_Sorted].
    destruct (Hother k eq_refl) as [H1 H2].
    apply String.eqb_neq in H1, H2. rewrite H1, H2.
    apply sort_ascending_Sorted.
Qed.

End CatalogueFacts.

(** ** capitalize_all *)

Lemma append_empty_r (s : string) : (s ++ EmptyString)%string = s.
Proof. induction s as [|c s IH]; simpl; [reflexivity | now rewrite IH]. Qed.

Lemma append_assoc_string (a b c : string) :
  ((a ++ b) ++ c)%string = (a ++ b ++ c)%string.
Proof. induction a as [|x a IH]; simpl; [reflexivity | now rewrite IH]. Qed.

Lemma spaceless_append a b :
  spaceless (a ++ b) = spaceless a && spaceless b.
Proof.
  induction a as [|c a IH]; simpl; [reflexivity|].
  now rewrite IH, andb_assoc.
Qed.

Lemma append_not_empty a c :
  (a ++ String c EmptyString)%string <> EmptyString.
Proof. destruct a; discriminate. Qed.

Lemma split_from_words text :
  forall word, spaceless word = true ->
               Forall is_word (App.split_from word text).
Proof.
  induction text as [|c rest IH]; intros word Hword; simpl.
  - destruct (String.eqb word EmptyString) eqn:E; constructor; [|constructor].
    apply String.eqb_neq in E. split; assumption.
  - destruct (App.is_space c) eqn:Hc.
    + destruct (String.eqb word EmptyString) eqn:E; [now apply IH|].
      apply String.eqb_neq in E. constructor; [split; assumption | now apply IH].
    + apply IH. rewrite spaceless_append, Hword; simpl. now rewrite Hc.
Qed.

Lemma split_from_word_prefix w :
  spaceless w = true ->
  forall word rest,
    App.split_from word (w ++ rest) = App.split_from (word ++ w) rest.
Proof.
  induction w as [|c w IH]; intros Hw word rest; simpl.
  - now rewrite append_empty_r.
  - simpl in Hw. apply andb_prop in Hw as [Hc Hw].
    apply negb_true_iff in Hc. rewrite Hc.
    rewrite IH by exact Hw. now rewrite append_assoc_string.
Qed.

(** Splitting undoes joining with single blanks. *)
Lemma split_concat_words ws :
  Forall is_word ws -> App.str_split (String.concat " " ws) = ws.
Proof.
  unfold App.str_split.
  induction 1 as [|w rest [Hne Hw] Hrest IH]; [reflexivity|].
  destruct rest as [|w2 rest'].
  - simpl. rewrite <- (append_empty_r w) at 1.
    rewrite split_from_word_prefix by exact Hw. simpl.
    apply String.eqb_neq in Hne. now rewrite Hne.
  - change (String.concat " " (w :: w2 :: rest'))
      with (w ++ String " " (String.concat " " (w2 :: rest')))%string.
    rewrite split_from_word_prefix by exact Hw.
    cbn [String.append App.split_from].
    change (App.is_space " ") with true. cbv iota.
    apply String.eqb_neq in Hne. rewrite Hne. now rewrite IH.
Qed.

Lemma upper_char_keeps_spaceless c :
  App.is_space c = false -> App.is_space (upper_char c) = false.
Proof.
  destruct c as [[] [] [] [] [] [] [] []]; vm_compute; intros H;
    first [reflexivity | discriminate H].
Qed.

Lemma lower_char_keeps_spaceless c :
  App.is_space c = false -> App.is_space (lower_char c) = false.
Proof.
  destruct c as [[] [] [] [] [] [] [] []]; vm_compute; intros H;
    first [reflexivity | discriminate H].
Qed.

Lemma upper_char_idempotent c : upper_char (upper_char c) = upper_char c.
Proof. destruct c as [[] [] [] [] [] [] [] []]; reflexivity. Qed.

Lemma lower_char_idempotent c : lower_char (lower_char c) = lower_char c.
Proof. destruct c as [[] [] [] [] [] [] [] []]; reflexivity. Qed.

Lemma str_lower_spaceless s :
  spaceless s = true -> spaceless (str_lower s) = true.
Proof.
  unfold str_lower.
  induction s as [|c s IH]; simpl; [reflexivity|].
  intros H; apply andb_prop in H as [Hc Hs].
  apply negb_true_iff in Hc.
  now rewrite (lower_char_keeps_spaceless _ Hc), IH.
Qed.

Lemma str_lower_idempotent s : str_lower (str_lower s) = str_lower s.
Proof.
  unfold str_lower.
  induction s as [|c s IH]; simpl; [reflexivity|].
  now rewrite lower_char_idempotent, IH.
Qed.

Lemma str_capitalize_word w : is_word w -> is_word (App.str_capitalize w).
Proof.
  intros [Hne Hw]. destruct w as [|c w]; [contradiction|].
  simpl in *. apply andb_prop in Hw as [Hc Hw].
  apply negb_true_iff in Hc. split; [discriminate|].
  simpl. now rewrite (upper_char_keeps_spaceless _ Hc), str_lower_spaceless.
Qed.

Lemma str_capitalize_idempotent w :
  App.str_capitalize (App.str_capitalize w) = App.str_capitalize w.
Proof.
  destruct w as [|c w]; simpl; [reflexivity|].
  now rewrite upper_char_idempotent, str_lower_idempotent.
Qed.

(** X29.  On ASCII text, the words of the result are the capitalized words
    of the text, as many as there were: splitting the result gives back
    exactly the words it was joined from. *)
Theorem capitalize_all_words text :
  App.ascii_text text = true ->
  App.str_split (App.capitalize_all text)
  = map App.str_capitalize (App.str_split text).
Proof.
  intros _. unfold App.capitalize_all.
  apply split_concat_words.
  apply Forall_map.
  eapply Forall_impl; [|apply split_from_words; reflexivity].
  intros w; apply str_capitalize_word.
Qed.

(** X30.  On ASCII text, applying the filter twice is the same as applying
    it once. *)
Theorem capitalize_all_idempotent text :
  App.ascii_text text = true ->
  App.capitalize_all (App.capitalize_all text) = App.capitalize_all text.
Proof.
  intros _. unfold App.capitalize_all at 1 3.
  fold (App.capitalize_all text).
  assert (Hsplit : App.str_split (App.capitalize_all text)
                   = map App.str_capitalize (App.str_split text)).
  { unfold App.capitalize_all. apply split_concat_words, Forall_map.
    eapply Forall_impl; [|apply split_from_words; reflexivity].
    intros w; apply str_capitalize_word. }
  rewrite Hsplit, map_map. unfold App.capitalize_all. f_equal.
  apply map_ext; intros w; apply str_capitalize_idempotent.
Qed.

Lemma capitalize_all_words_witness :
  App.str_split (App.capitalize_all "  basal   cell CARCINOMA ")
  = ["Basal"; "Cell"; "Carcinoma"]%string.
Proof.
  apply (@capitalize_all_words "  basal   cell CARCINOMA "). reflexivity.
Defined.

Lemma capitalize_all_idempotent_witness :
  App.capitalize_all (App.capitalize_all "  basal   cell CARCINOMA ")
  = "Basal Cell Carcinoma"%string.
Proof.
  apply (@capitalize_all_idempotent "  basal   cell CARCINOMA "). reflexivity.
Defined.

Lemma conditions_are_ordered_witness :
  StronglySorted
    (fun a b => Education.severity_key str_lower b
                <= Education.severity_key str_lower a)%Z
    (fst (fst (Education.conditions str_lower str_contains
                 (Some "KERATOSIS"%string) (Some "severity"%string)))).
Proof.
  apply (@conditions_are_ordered str_lower str_contains
           (Some "KERATOSIS"%string) (Some "severity"%string)).
  reflexivity.
Defined.
